(** * Mermaid diagram verification script: a shallow embedding

    The development follows [verify_mermaid_diagrams.py]: the diagram
    extractor, the heuristic syntax validator, the render probe and the
    orchestrating [main].  Python strings are sequences of Unicode code
    points; the file system, the temporary files and the external renderer
    are an explicit environment and an explicit state.  Console output
    ([print]) has no influence on any returned value or file and is left
    out of the model.  The inventory of [test_ui_analyzer.py] follows the
    same conventions. *)

From Stdlib Require Import String Ascii.
From Stdlib Require Import List ZArith NArith Lia Bool.
From Stdlib Require Import DecimalString DecimalZ DecimalPos Sorted Permutation.
Import ListNotations.

Local Open Scope Z_scope.

(** ** Python strings *)

Module PyStr.

(** A character is a code point, a [str] a sequence of them. *)
Definition char := N.
Definition str := list char.

(** An ASCII literal of the source as a [str]. *)
Definition py (s : string) : str :=
  List.map N_of_ascii (list_ascii_of_string s).

Definition char_eqb (a b : char) : bool := N.eqb a b.

Fixpoint str_eqb (a b : str) : bool :=
  match a, b with
  | [], [] => true
  | x :: a', y :: b' => char_eqb x y && str_eqb a' b'
  | _, _ => false
  end.

Definition NL : char := 10%N.

(** [s.count(c)] for a one-character needle. *)
Fixpoint count (c : char) (s : str) : Z :=
  match s with
  | [] => 0
  | x :: s' => (if char_eqb x c then 1 else 0) + count c s'
  end.

(** [s.split('\n')]: never empty, the empty string gives one empty line. *)
Fixpoint split_nl (s : str) : list str :=
  match s with
  | [] => [[]]
  | x :: s' =>
      if char_eqb x NL then [] :: split_nl s'
      else match split_nl s' with
           | l :: ls => (x :: l) :: ls
           | [] => [[x]]
           end
  end.

(** [s.startswith(p)] and the rest of [s] after the prefix. *)
Fixpoint strip_prefix (p s : str) : option str :=
  match p with
  | [] => Some s
  | c :: p' =>
      match s with
      | x :: s' => if char_eqb x c then strip_prefix p' s' else None
      | [] => None
      end
  end.

Definition startswith (s p : str) : bool :=
  match strip_prefix p s with Some _ => true | None => false end.

(** [s.find(sub)] as an offset, [None] for Python's -1. *)
Fixpoint find_sub (sub s : str) : option nat :=
  if startswith s sub then Some O
  else match s with
       | [] => None
       | _ :: s' => option_map S (find_sub sub s')
       end.

(** [sub in s]. *)
Definition contains (sub s : str) : bool :=
  match find_sub sub s with Some _ => true | None => false end.

Definition find (s sub : str) : Z :=
  match find_sub sub s with Some i => Z.of_nat i | None => -1 end.

(** The slice [s[:k]], a negative [k] counting from the end. *)
Definition slice_to (s : str) (k : Z) : str :=
  if k <? 0 then firstn (Nat.sub (length s) (Z.to_nat (- k))) s
  else firstn (Z.to_nat k) s.

(** [str.isspace] on one character: the code points CPython's
    [_PyUnicode_IsWhitespace] accepts. *)
Definition isspace (c : char) : bool :=
  ((9 <=? c) && (c <=? 13) || (28 <=? c) && (c <=? 32)
   || (c =? 133) || (c =? 160) || (c =? 5760)
   || (8192 <=? c) && (c <=? 8202)
   || (c =? 8232) || (c =? 8233) || (c =? 8239) || (c =? 8287)
   || (c =? 12288))%N.

Fixpoint lstrip (s : str) : str :=
  match s with
  | x :: s' => if isspace x then lstrip s' else s
  | [] => []
  end.

Definition rstrip (s : str) : str := rev (lstrip (rev s)).

(** [s.strip()]. *)
Definition strip (s : str) : str := rstrip (lstrip s).

(** [str(n)] for an integer, as in an f-string. *)
Definition str_of_Z (n : Z) : str := py (NilZero.string_of_int (Z.to_int n)).
Definition str_of_nat (n : nat) : str := str_of_Z (Z.of_nat n).

End PyStr.
Import PyStr.

(** ** The regular expressions of the script *)

Module Re.

(** The fence pattern [```mermaid\n(.*?)\n```] under [re.DOTALL]. *)
Definition fence_open : str := py "```mermaid" ++ [NL].
Definition fence_close : str := NL :: py "```".

(** Leftmost, non-overlapping, non-greedy matches of the fence pattern in
    [s], scanned from offset [pos]: each match is the offset of its group
    and the group.  [skip] characters belong to the previous match. *)
Fixpoint finditer_from (skip pos : nat) (s : str) : list (nat * str) :=
  match s with
  | [] => []
  | _ :: tl =>
      match skip with
      | S k => finditer_from k (S pos) tl
      | O =>
          match strip_prefix fence_open s with
          | Some rest =>
              match find_sub fence_close rest with
              | Some j =>
                  (Nat.add pos (length fence_open), firstn j rest)
                    :: finditer_from
                         (Nat.pred (length fence_open + j + length fence_close))
                         (S pos) tl
              | None => finditer_from O (S pos) tl
              end
          | None => finditer_from O (S pos) tl
          end
      end
  end.

Definition finditer (s : str) : list (nat * str) := finditer_from O O s.

(** [re.findall(mermaid_pattern, content, re.DOTALL)]: the groups only. *)
Definition findall (s : str) : list str := List.map snd (finditer s).

(** A pattern without alternation: literal characters and [cls+]. *)
Inductive atom :=
| Lit (c : char)
| Plus (cls : char -> bool).

(** [re.match]: the pattern matches a prefix of [s]; [cls+] backtracks. *)
Fixpoint match_here (re : list atom) (s : str) : bool :=
  match re with
  | [] => true
  | Lit c :: re' =>
      match s with
      | x :: s' => char_eqb x c && match_here re' s'
      | [] => false
      end
  | Plus cls :: re' =>
      (fix many (s : str) : bool :=
         match s with
         | x :: s' => cls x && (many s' || match_here re' s')
         | [] => false
         end) s
  end.

Definition lits (s : str) : list atom := List.map Lit s.

End Re.

(** The alphanumeric table of the interpreter enters the validator as a
    parameter; on texts that are ASCII throughout it is never consulted,
    and the concrete runs below take the empty one. *)
Definition ascii_only : char -> bool := fun _ => false.

(** ** Exceptions, the environment and the state of a run *)

(** The exception classes the script tells apart; the payload is [str(e)]. *)
Inductive exn :=
| TimeoutExpired (msg : str)
| FileNotFoundError (msg : str)
| OtherException (msg : str).

Definition exn_str (e : exn) : str :=
  match e with
  | TimeoutExpired m | FileNotFoundError m | OtherException m => m
  end.

(** What [subprocess.run] returns, as far as the script reads it. *)
Record CompletedProcess := {
  returncode : Z;
  stderr : str
}.

(** What became of the input file while the renderer ran: it is left
    alone, the renderer removed it, or the renderer holds it, so that
    removing it raises. *)
Inductive InputFate :=
| Untouched
| Removed
| Held (e : exn).

(** A renderer process as the outside world runs it: how long it runs, in
    the unit of the timeout, what [subprocess.run] returns when it is let
    to finish, and what it does to its input file. *)
Record Process := {
  elapsed : Z;
  completed : CompletedProcess;
  input_fate : InputFate
}.

(** What the outside world answers during one render probe: the name that
    [NamedTemporaryFile] picks (or the exception it raises), whether
    [f.write] raises, and the [mmdc] invocation: the exception of the
    launch, or the process that runs.  What the process did to its input
    decides how [os.unlink] ends. *)
Record ProbeEnv := {
  pe_tempfile : exn + str;
  pe_write : option exn;
  pe_run : exn + Process
}.

Definition input_fate_of (pe : ProbeEnv) : InputFate :=
  match pe_run pe with
  | inr p => input_fate p
  | inl _ => Untouched
  end.

(** The answer to [os.unlink] for a file that is on disk. *)
Definition unlink_refused (pe : ProbeEnv) : option exn :=
  match input_fate_of pe with
  | Held e => Some e
  | Untouched | Removed => None
  end.

(** A [Path] of [docs_dir.glob("*.md")] and what reading it gives. *)
Record MdFile := {
  md_name : str;              (* file_path.name *)
  md_str : str;               (* str(file_path) *)
  md_read : exn + str         (* open(...).read() *)
}.

Record Env := {
  docs_exists : bool;            (* docs_dir.exists() *)
  docs_glob : list MdFile;       (* docs_dir.glob("*.md"), in the order given *)
  probe_env : nat -> ProbeEnv;   (* the answers to the k-th probe of the run *)
  report_open : option exn       (* open(results_file, 'w') raises *)
}.

Record Diagram := {
  id : str;
  file : str;
  content : str;
  line_number : Z
}.

(** The dictionary [result] of [main] as it is appended to
    [validation_results]; [None] is Python's [None]. *)
Record ValidationResult := {
  r_id : str;
  r_file : str;
  r_type : option str;
  syntax_errors : list str;
  render_test : option bool;
  render_message : str
}.

(** Input and output operations, in the order they happen. *)
Inductive Io :=
| IoRead (path : str)
| IoTempCreate (name : str)
| IoSpawn (name : str)
| IoUnlink (name : str)
| IoWriteReport.

(** The disk as the script touches it, and the operations done so far. *)
Record State := {
  tmp_files : list str;
  report_file : option (list ValidationResult);
  trace : list Io
}.

Definition log (io : Io) (s : State) : State :=
  {| tmp_files := tmp_files s; report_file := report_file s;
     trace := trace s ++ [io] |}.

Definition set_tmp (t : list str) (s : State) : State :=
  {| tmp_files := t; report_file := report_file s; trace := trace s |}.

Definition set_report (r : list ValidationResult) (s : State) : State :=
  {| tmp_files := tmp_files s; report_file := Some r; trace := trace s |}.

(** ** A state monad with exceptions

    The state survives an exception: what was written to disk before a
    [raise] stays written. *)

Definition M (A : Type) : Type := State -> (exn + A) * State.

Definition ret {A} (a : A) : M A := fun s => (inr a, s).

Definition raise {A} (e : exn) : M A := fun s => (inl e, s).

Definition bind {A B} (m : M A) (k : A -> M B) : M B :=
  fun s =>
    match m s with
    | (inr a, s') => k a s'
    | (inl e, s') => (inl e, s')
    end.

Definition modify (f : State -> State) : M unit := fun s => (inr tt, f s).

Definition gets {A} (f : State -> A) : M A := fun s => (inr (f s), s).

Declare Scope py_scope.
Delimit Scope py_scope with py.
Notation "x <- m ;; k" := (bind m (fun x => k))
  (at level 61, m at next level, right associativity) : py_scope.
Notation "m ;; k" := (bind m (fun _ => k))
  (at level 61, right associativity) : py_scope.
Local Open Scope py_scope.

(** [try: body except ...: handler]; the handler answers [None] for an
    exception class its clause does not name. *)
Definition try_except {A} (body : M A) (handler : exn -> option (M A)) : M A :=
  fun s =>
    match body s with
    | (inr a, s') => (inr a, s')
    | (inl e, s') =>
        match handler e with
        | Some h => h s'
        | None => (inl e, s')
        end
    end.

(** [try: body finally: fin]: [fin] runs on every way out of [body], and
    an exception of [fin] replaces the outcome of [body]. *)
Definition try_finally {A} (body : M A) (fin : M unit) : M A :=
  fun s =>
    match body s with
    | (r, s') =>
        match fin s' with
        | (inr _, s'') => (r, s'')
        | (inl e, s'') => (inl e, s'')
        end
    end.

Definition lift_result {A} (r : exn + A) : M A :=
  match r with inl e => raise e | inr a => ret a end.

Definition mem_str (n : str) (l : list str) : bool := existsb (str_eqb n) l.

Definition remove_str (n : str) (l : list str) : list str :=
  filter (fun x => negb (str_eqb n x)) l.

(** ** Diagram extractor *)

(** The body of the [for i, match in enumerate(matches)] loop. *)
Definition mk_diagram (f : MdFile) (text : str) (i : nat) (m : str) : Diagram :=
  {| id := md_name f ++ py "_" ++ str_of_nat i;
     file := md_str f;
     content := strip m;
     line_number := count NL (slice_to text (find text m)) + 1 |}.

Fixpoint enumerate_from {A} (i : nat) (l : list A) : list (nat * A) :=
  match l with
  | [] => []
  | a :: l' => (i, a) :: enumerate_from (S i) l'
  end.

Definition diagrams_of (f : MdFile) (text : str) : list Diagram :=
  List.map (fun im => mk_diagram f text (fst im) (snd im))
           (enumerate_from O (Re.findall text)).

Definition open_read (f : MdFile) : M str :=
  modify (log (IoRead (md_str f))) ;;
  lift_result (md_read f).

Definition extract_mermaid_diagrams (f : MdFile) : M (list Diagram) :=
  try_except
    (text <- open_read f ;;
     ret (diagrams_of f text))
    (fun _ => Some (ret [])).

(** ** Render probe *)

Definition mmdc_ok : str := py "Rendered successfully".
Definition mmdc_failed : str := py "Rendering failed: ".
Definition mmdc_unavailable : str := py "Mermaid CLI not available".
Definition probe_error : str := py "Rendering test error: ".

(** [with tempfile.NamedTemporaryFile(mode='w', suffix='.mmd',
    delete=False) as f: f.write(diagram_content); temp_file = f.name].
    The file is created under the name the system picks (one not in use);
    leaving the [with] block closes it and, with [delete=False], keeps it
    on disk, also when [f.write] raised. *)
Definition named_temporary_file (pe : ProbeEnv) (diagram_content : str) : M str :=
  name <- lift_result (pe_tempfile pe) ;;
  modify (fun s => log (IoTempCreate name) (set_tmp (name :: tmp_files s) s)) ;;
  match pe_write pe with
  | Some e => raise e
  | None => ret name
  end.

(** [subprocess.run(['mmdc', '-i', temp_file, '-o', '/dev/null',
    '--quiet'], capture_output=True, text=True, timeout=timeout)]: the
    launch raises, or the process runs, does to its input what it does,
    and is killed with [TimeoutExpired] when it runs longer than
    [timeout]. *)
Definition subprocess_run (pe : ProbeEnv) (temp_file : str) (timeout : Z)
  : M CompletedProcess :=
  modify (log (IoSpawn temp_file)) ;;
  match pe_run pe with
  | inl e => raise e
  | inr p =>
      match input_fate p with
      | Removed =>
          modify (fun s => set_tmp (remove_str temp_file (tmp_files s)) s)
      | Untouched | Held _ => ret tt
      end ;;
      if timeout <? elapsed p then
        raise (TimeoutExpired
                 (py "Command 'mmdc' timed out after " ++ str_of_Z timeout
                    ++ py " seconds"))
      else ret (completed p)
  end.

(** [os.unlink(temp_file)]: a file that is gone cannot be removed, and
    neither can a file that the renderer holds. *)
Definition os_unlink (pe : ProbeEnv) (temp_file : str) : M unit :=
  present <- gets (fun s => mem_str temp_file (tmp_files s)) ;;
  if present : bool then
    match unlink_refused pe with
    | Some e => raise e
    | None =>
        modify (fun s => log (IoUnlink temp_file)
                             (set_tmp (remove_str temp_file (tmp_files s)) s))
    end
  else
    raise (FileNotFoundError
             (py "[Errno 2] No such file or directory: '" ++ temp_file
                ++ py "'")).

Definition test_mermaid_rendering (pe : ProbeEnv) (diagram_content : str)
  : M (option bool * str) :=
  try_except
    (temp_file <- named_temporary_file pe diagram_content ;;
     try_finally
       (try_except
          (result <- subprocess_run pe temp_file 10 ;;
           if returncode result =? 0 then ret (Some true, mmdc_ok)
           else ret (Some false, mmdc_failed ++ stderr result))
          (fun e =>
             match e with
             | TimeoutExpired _ | FileNotFoundError _ =>
                 Some (ret (None, mmdc_unavailable))
             | OtherException _ => None
             end))
       (os_unlink pe temp_file))
    (fun e => Some (ret (Some false, probe_error ++ exn_str e))).

(** ** The project inventory of [test_ui_analyzer.py] *)

Module UiAnalyzer.

(** What the file system answers: [full_path.exists()] and
    [full_path.stat().st_size] for a path below the project root. *)
Record ProjectFs := {
  path_exists : str -> bool;
  st_size : str -> Z
}.

(** The dictionary [key_files], in the order of its entries. *)
Definition key_files : list (str * str) :=
  [(py "src/lib.rs", py "Library main file");
   (py "src/editor_ui.rs", py "Editor UI implementation");
   (py "src/ui_analyzer.rs", py "UI analyzer module");
   (py "src/ui_analyzer_enhanced.rs", py "Enhanced UI analyzer");
   (py "Cargo.toml", py "Project configuration");
   (py "comprehensive_enforcer_enhanced.ps1", py "Enforcer script");
   (py ".trae/documents/comprehensive_work_documentation.md",
    py "Documentation")].

(** The loop over [key_files.items()], with the two lists it appends to. *)
Fixpoint scan (fs : ProjectFs) (items : list (str * str))
    (present_files : list (str * str * Z)) (missing_files : list (str * str))
  : list (str * str * Z) * list (str * str) :=
  match items with
  | [] => (present_files, missing_files)
  | (file_path, description) :: rest =>
      if path_exists fs file_path then
        let size := st_size fs file_path in
        scan fs rest (present_files ++ [(file_path, description, size)])
             missing_files
      else
        scan fs rest present_files
             (missing_files ++ [(file_path, description)])
  end.

Definition analyze_project_structure (fs : ProjectFs)
  : list (str * str * Z) * list (str * str) :=
  scan fs key_files [] [].

End UiAnalyzer.

(** ** Syntax validator and orchestrator

    [\w] of a [str] pattern is [Py_UNICODE_ISALNUM(ch) || ch == '_'].  Above
    ASCII the alphanumeric characters are a table of the Unicode database,
    which the interpreter supplies; it is a parameter here. *)

Section Validator.

Variable unicode_alnum : char -> bool.

Definition isalnum (c : char) : bool :=
  (if c <? 128 then
     (48 <=? c) && (c <=? 57) || (65 <=? c) && (c <=? 90)
     || (97 <=? c) && (c <=? 122)
   else unicode_alnum c)%N.

(** The classes [\s] and [\w]. *)
Definition re_space : char -> bool := isspace.
Definition re_word (c : char) : bool := isalnum c || char_eqb c 95%N.

(** [r'style\s+\w+\s+fill:']. *)
Definition style_pattern : list Re.atom :=
  Re.lits (py "style")
    ++ [Re.Plus re_space; Re.Plus re_word; Re.Plus re_space]
    ++ Re.lits (py "fill:").

Definition valid_types : list str :=
  List.map py ["graph TD"; "graph LR"; "sequenceDiagram"; "gantt";
               "erDiagram"; "flowchart"; "stateDiagram"]%string.

Definition arrow_patterns : list str :=
  List.map py ["-->"; "---"; "==>"; "=="; "-.->"; "-.-"]%string.

(** The inner loop [for vtype in valid_types: if vtype in line: ...]. *)
Fixpoint first_type_in (line : str) (vtypes : list str) : option str :=
  match vtypes with
  | [] => None
  | vtype :: rest =>
      if contains vtype line then Some vtype else first_type_in line rest
  end.

(** The outer loop over the lines, left at the first line with a type. *)
Fixpoint detect_type (lines : list str) : option str :=
  match lines with
  | [] => None
  | line :: rest =>
      match first_type_in line valid_types with
      | Some vtype => Some vtype
      | None => detect_type rest
      end
  end.

Definition unclosed (label : string) (open_count : Z) : list str :=
  if open_count =? 0 then []
  else [py label ++ str_of_Z open_count].

Definition style_error (style_line : str) : list str :=
  if Re.match_here style_pattern style_line then []
  else [py "Invalid style syntax: " ++ strip style_line].

Definition validate_mermaid_syntax (diagram_content : str)
  : list str * option str :=
  let lines := split_nl diagram_content in
  let open_brackets := count 91%N diagram_content - count 93%N diagram_content in
  let open_braces := count 123%N diagram_content - count 125%N diagram_content in
  let open_parens := count 40%N diagram_content - count 41%N diagram_content in
  let errors1 :=
    unclosed "Unclosed brackets: " open_brackets
      ++ unclosed "Unclosed braces: " open_braces
      ++ unclosed "Unclosed parentheses: " open_parens in
  let diagram_type := detect_type (firstn 3 lines) in
  let errors2 :=
    match diagram_type with
    | None => [py "No valid diagram type found"]
    | Some _ => []
    end in
  let has_arrows := existsb (fun pattern => contains pattern diagram_content)
                            arrow_patterns in
  let errors3 :=
    match diagram_type with
    | Some t =>
        if negb has_arrows && contains (py "graph") t
        then [py "Graph diagram missing arrow connections"]
        else []
    | None => []
    end in
  let style_lines :=
    filter (fun line => startswith (strip line) (py "style ")) lines in
  let errors4 := flat_map style_error style_lines in
  (errors1 ++ errors2 ++ errors3 ++ errors4, diagram_type).

(** The [for diagram in all_diagrams] loop of [main]: [k] is the number of
    probes already run, [total_errors] and [validation_results] are the
    loop's variables. *)
Fixpoint validate_all (env : Env) (k : nat) (all_diagrams : list Diagram)
    (total_errors : Z) (validation_results : list ValidationResult)
  : M (Z * list ValidationResult) :=
  match all_diagrams with
  | [] => ret (total_errors, validation_results)
  | diagram :: rest =>
      let '(errors, diagram_type) := validate_mermaid_syntax (content diagram) in
      let total_errors :=
        match errors with
        | [] => total_errors
        | _ :: _ => total_errors + Z.of_nat (length errors)
        end in
      rm <- test_mermaid_rendering (probe_env env k) (content diagram) ;;
      let '(render_result, render_message) := rm in
      let result :=
        {| r_id := id diagram; r_file := file diagram; r_type := diagram_type;
           syntax_errors := errors; render_test := render_result;
           render_message := render_message |} in
      let total_errors :=
        match render_result with
        | Some false => total_errors + 1
        | _ => total_errors
        end in
      validate_all env (S k) rest total_errors (validation_results ++ [result])
  end.

(** The extraction loop: [all_diagrams.extend(diagrams)] for every file. *)
Fixpoint extract_all (files : list MdFile) (all_diagrams : list Diagram)
  : M (list Diagram) :=
  match files with
  | [] => ret all_diagrams
  | file_path :: rest =>
      diagrams <- extract_mermaid_diagrams file_path ;;
      extract_all rest (all_diagrams ++ diagrams)
  end.

(** [with open(results_file, 'w') as f: json.dump(validation_results, f,
    indent=2)]: the file holds the serialised list, which is a function of
    the list alone. *)
Definition save_results (env : Env) (validation_results : list ValidationResult)
  : M unit :=
  match report_open env with
  | Some e => raise e
  | None => modify (fun s => log IoWriteReport (set_report validation_results s))
  end.

(** [main()] returns [None] after a failed discovery and otherwise
    [total_errors == 0]. *)
Definition main (env : Env) : M (option bool) :=
  if negb (docs_exists env) then ret None
  else
    let markdown_files := docs_glob env in
    match markdown_files with
    | [] => ret None
    | _ :: _ =>
        all_diagrams <- extract_all markdown_files [] ;;
        tr <- validate_all env O all_diagrams 0 [] ;;
        let '(total_errors, validation_results) := tr in
        save_results env validation_results ;;
        ret (Some (total_errors =? 0))
    end.

(** [success = main(); exit(0 if success else 1)]; an exception that leaves
    [main] ends the interpreter with status 1. *)
Definition exit_status (r : exn + option bool) : Z :=
  match r with
  | inr (Some true) => 0
  | inr (Some false) | inr None => 1
  | inl _ => 1
  end.

Definition run (env : Env) (s : State) : Z * State :=
  let '(r, s') := main env s in (exit_status r, s').

(** ** Notions of the specification *)

(** [total error count]: the lengths of [syntax_errors] summed over the
    results, plus one for each result whose [render_test] is [False]; a
    [render_test] of [None] or [True] adds nothing. *)
Definition result_errors (r : ValidationResult) : Z :=
  Z.of_nat (length (syntax_errors r))
  + match render_test r with Some false => 1 | _ => 0 end.

Fixpoint total_error_count (results : list ValidationResult) : Z :=
  match results with
  | [] => 0
  | r :: rest => result_errors r + total_error_count rest
  end.

(** The results a run leaves on disk, none when there is no report. *)
Definition results_on_disk (s : State) : list ValidationResult :=
  match report_file s with Some r => r | None => [] end.

(** The exit status is success exactly when the total error count is 0. *)
Definition exit_reflects_errors (env : Env) (s : State) : Prop :=
  let '(status, s') := run env s in
  status = 0 <-> total_error_count (results_on_disk s') = 0.

(** A run that gets past discovery and can open its report file. *)
Definition completes (env : Env) : Prop :=
  docs_exists env = true /\ docs_glob env <> [] /\ report_open env = None.

(** The non-empty lines of a diagram. *)
Definition nonempty_lines (lines : list str) : list str :=
  filter (fun line => negb (str_eqb line [])) lines.

(** A line carries a recognised dialect header. *)
Definition has_header (line : str) : Prop :=
  exists vtype, In vtype valid_types /\ contains vtype line = true.

(** The exception of the removal of the temporary file [name] after the
    renderer ran: the file is gone, or the renderer holds it. *)
Definition removal_failure (pe : ProbeEnv) (name : str) : option exn :=
  match input_fate_of pe with
  | Untouched => None
  | Removed =>
      Some (FileNotFoundError
              (py "[Errno 2] No such file or directory: '" ++ name ++ py "'"))
  | Held e => Some e
  end.

(** The outcome of a probe, case by case: an exception while the
    temporary file is made, written or removed gives the error outcome;
    otherwise the renderer decides, by its absence, its running time and
    its exit status. *)
Definition probe_outcome (pe : ProbeEnv) : option bool * str :=
  match pe_tempfile pe, pe_write pe with
  | inl e, _ => (Some false, probe_error ++ exn_str e)
  | inr _, Some e => (Some false, probe_error ++ exn_str e)
  | inr name, None =>
      match removal_failure pe name with
      | Some e => (Some false, probe_error ++ exn_str e)
      | None =>
          match pe_run pe with
          | inr p =>
              if 10 <? elapsed p then (None, mmdc_unavailable)
              else if returncode (completed p) =? 0 then (Some true, mmdc_ok)
              else (Some false, mmdc_failed ++ stderr (completed p))
          | inl (TimeoutExpired _) => (None, mmdc_unavailable)
          | inl (FileNotFoundError _) => (None, mmdc_unavailable)
          | inl (OtherException m) => (Some false, probe_error ++ m)
          end
      end
  end.


(** The offset of a group as a 1-based line of the file. *)
Definition line_of_offset (text : str) (offset : nat) : Z :=
  count NL (firstn offset text) + 1.

(** The diagrams of the files, file after file, an unreadable file
    giving none. *)
Definition diagrams_in (files : list MdFile) : list Diagram :=
  flat_map (fun f => match md_read f with
                     | inr text => diagrams_of f text
                     | inl _ => []
                     end) files.

(** The result of each diagram: its syntax errors and the outcome of its
    probe, the [k]-th of the run. *)
Fixpoint results_for (env : Env) (k : nat) (diagrams : list Diagram)
  : list ValidationResult :=
  match diagrams with
  | [] => []
  | d :: rest =>
      {| r_id := id d; r_file := file d;
         r_type := snd (validate_mermaid_syntax (content d));
         syntax_errors := fst (validate_mermaid_syntax (content d));
         render_test := fst (probe_outcome (probe_env env k));
         render_message := snd (probe_outcome (probe_env env k)) |}
        :: results_for env (S k) rest
  end.

(** Which group an error of the validator comes from. *)
Inductive error_origin (diagram_content e : str) : Prop :=
| from_brackets :
    In e (unclosed "Unclosed brackets: "
            (count 91%N diagram_content - count 93%N diagram_content)) ->
    error_origin diagram_content e
| from_braces :
    In e (unclosed "Unclosed braces: "
            (count 123%N diagram_content - count 125%N diagram_content)) ->
    error_origin diagram_content e
| from_parens :
    In e (unclosed "Unclosed parentheses: "
            (count 40%N diagram_content - count 41%N diagram_content)) ->
    error_origin diagram_content e
| from_type :
    snd (validate_mermaid_syntax diagram_content) = None ->
    e = py "No valid diagram type found" ->
    error_origin diagram_content e
| from_arrows :
    e = py "Graph diagram missing arrow connections" ->
    error_origin diagram_content e
| from_style (l : str) :
    In l (split_nl diagram_content) ->
    startswith (strip l) (py "style ") = true ->
    Re.match_here style_pattern l = false ->
    e = py "Invalid style syntax: " ++ strip l ->
    error_origin diagram_content e.

(** ** Concrete inputs *)

(** ["\n".join(lines)]. *)
Fixpoint join_nl (lines : list str) : str :=
  match lines with
  | [] => []
  | [l] => l
  | l :: rest => l ++ NL :: join_nl rest
  end.

Definition empty_disk : State :=
  {| tmp_files := []; report_file := None; trace := [] |}.

(** A disk with an older report and a temporary file left behind. *)
Definition stale_disk : State :=
  {| tmp_files := [py "/tmp/old.mmd"]; report_file := Some []; trace := [] |}.

(** A renderer that runs for 2 time units, exits with status 0 and
    leaves its input alone. *)
Definition renders : Process :=
  {| elapsed := 2; completed := {| returncode := 0; stderr := [] |};
     input_fate := Untouched |}.

Definition probe_renders (name : string) : ProbeEnv :=
  {| pe_tempfile := inr (py name); pe_write := None; pe_run := inr renders |}.

Definition probe_no_mmdc (name : string) : ProbeEnv :=
  {| pe_tempfile := inr (py name); pe_write := None;
     pe_run := inl (FileNotFoundError (py "[Errno 2] No such file or directory: 'mmdc'")) |}.

(** A diagram with the arrow U+2192 in a label, and a probe in which
    [f.write] raises: the locale's encoding has no such character. *)
Definition arrow_in_label : str :=
  join_nl [py "graph TD"; py "A-->B[" ++ [8594%N] ++ py "]"].

Definition probe_write_raises (name : string) : ProbeEnv :=
  {| pe_tempfile := inr (py name);
     pe_write := Some (OtherException
                         (py "'charmap' codec can't encode character"));
     pe_run := inr renders |}.

Definition md_file (name : string) (text : str) : MdFile :=
  {| md_name := py name; md_str := py "docs/" ++ py name; md_read := inr text |}.

(** The header is on the second non-empty line and on the fourth line. *)
Definition header_after_blanks : str :=
  join_nl [py "%% title"; []; []; py "graph TD"; py "A-->B"].

(** A style line that is indented inside a subgraph. *)
Definition indented_style : str :=
  join_nl [py "flowchart"; py "  style X fill:#fff"].

(** Two blocks with the same text, the second one beginning on line 7. *)
Definition twice_the_same_block : str :=
  join_nl [py "```mermaid"; py "graph TD"; py "A-->B"; py "```";
           py "and again"; py "```mermaid"; py "graph TD"; py "A-->B";
           py "```"].

(** A block whose first line is indented. *)
Definition indented_block : str :=
  join_nl [py "```mermaid"; py "  graph TD"; py "  A-->B  "; py "```"].

Definition env_no_docs : Env :=
  {| docs_exists := false; docs_glob := [];
     probe_env := fun _ => probe_no_mmdc "/tmp/tmp0.mmd"; report_open := None |}.

Definition env_no_markdown : Env :=
  {| docs_exists := true; docs_glob := [];
     probe_env := fun _ => probe_no_mmdc "/tmp/tmp0.mmd"; report_open := None |}.

(** One file without diagrams in a directory that cannot be written. *)
Definition env_read_only : Env :=
  {| docs_exists := true; docs_glob := [md_file "a.md" (py "no diagrams")];
     probe_env := fun _ => probe_no_mmdc "/tmp/tmp0.mmd";
     report_open := Some (OtherException (py "[Errno 13] Permission denied")) |}.

(** One file with two diagrams; the renderer is there or is not. *)
Definition env_rendering (name : string) : Env :=
  {| docs_exists := true;
     docs_glob := [md_file "a.md" twice_the_same_block];
     probe_env := fun _ => probe_renders name; report_open := None |}.

(** ** Notions for the extractor *)

(** The group [group] stands at [offset] in [text], between an opening
    and a closing fence. *)
Definition fenced_at (text : str) (offset : nat) (group : str) : Prop :=
  exists before after,
    text = before ++ Re.fence_open ++ group ++ Re.fence_close ++ after
    /\ offset = (length before + length Re.fence_open)%nat.

(** The match [m2] begins after the closing fence of the match [m1]. *)
Definition after_match (m1 m2 : nat * str) : Prop :=
  (fst m1 + length (snd m1) + length Re.fence_close + length Re.fence_open
   <= fst m2)%nat.

(** ** Notions for the validator *)

(** The shape [style <identifier> fill:...]: the keyword, white space, an
    identifier of word characters, white space, [fill:] and anything. *)
Definition style_shape (line : str) : Prop :=
  exists ws1 ident ws2 rest,
    line = py "style" ++ ws1 ++ ident ++ ws2 ++ py "fill:" ++ rest
    /\ ws1 <> [] /\ forallb re_space ws1 = true
    /\ ident <> [] /\ forallb re_word ident = true
    /\ ws2 <> [] /\ forallb re_space ws2 = true.

(** The errors of the bracket balance check among all errors. *)
Definition unclosed_errors (errors : list str) : list str :=
  filter (fun e => startswith e (py "Unclosed ")) errors.

(** ** Notions for the probe and the run *)

(** The operations of a probe: on its temporary file and the renderer. *)
Definition probe_io (io : Io) : bool :=
  match io with
  | IoTempCreate _ | IoSpawn _ | IoUnlink _ => true
  | IoRead _ | IoWriteReport => false
  end.

(** The reads of the files of a listing, one per file, in its order. *)
Definition reads_of (files : list MdFile) : list Io :=
  List.map (fun f => IoRead (md_str f)) files.


(** A result without a defect: no syntax error and no failed render. *)
Definition clean (r : ValidationResult) : Prop :=
  syntax_errors r = [] /\ render_test r <> Some false.

(** ** Further concrete inputs *)

(** A file that is not valid UTF-8. *)
Definition unreadable_file : MdFile :=
  {| md_name := py "b.md"; md_str := py "docs/b.md";
     md_read := inl (OtherException (py "'utf-8' codec can't decode byte")) |}.

Definition env_of (files : list MdFile) (probe : ProbeEnv) : Env :=
  {| docs_exists := true; docs_glob := files;
     probe_env := fun _ => probe; report_open := None |}.

(** The second block of [twice_the_same_block]: its text and offset. *)
Definition repeated_text : str := join_nl [py "graph TD"; py "A-->B"].
Definition second_offset : nat := 51.

(** The only block of [indented_block], as the pattern captures it. *)
Definition indented_text : str := join_nl [py "  graph TD"; py "  A-->B  "].

(** ** Notions for the revised run properties *)

(** The same environment with another answer to the opening of the report
    file, and with another listing. *)
Definition with_report_open (env : Env) (answer : option exn) : Env :=
  {| docs_exists := docs_exists env; docs_glob := docs_glob env;
     probe_env := probe_env env; report_open := answer |}.

Definition with_glob (env : Env) (files : list MdFile) : Env :=
  {| docs_exists := docs_exists env; docs_glob := files;
     probe_env := probe_env env; report_open := report_open env |}.

(** The state of a run after its last probe, before the report is
    opened. *)
Definition state_before_report (env : Env) (s : State) : State :=
  snd (validate_all env O (diagrams_in (docs_glob env)) 0 []
         (snd (extract_all (docs_glob env) [] s))).


Definition probe_holds_input (name : string) : ProbeEnv :=
  {| pe_tempfile := inr (py name); pe_write := None;
     pe_run := inr {| elapsed := 2;
                      completed := {| returncode := 0; stderr := [] |};
                      input_fate :=
                        Held (OtherException
                                (py "[WinError 32] The process cannot access the file")) |} |}.


(** One file with two diagrams in a directory that cannot be written. *)
Definition env_report_refused : Env :=
  {| docs_exists := true;
     docs_glob := [md_file "a.md" twice_the_same_block];
     probe_env := fun _ => probe_renders "/tmp/tmp0.mmd";
     report_open := Some (OtherException (py "[Errno 13] Permission denied")) |}.

(** ** Strings: basic facts *)

Lemma char_eqb_eq (a b : char) : char_eqb a b = true <-> a = b.
Proof. apply N.eqb_eq. Qed.

Lemma startswith_app (p x : str) : startswith (p ++ x) p = true.
Proof.
  unfold startswith.
  induction p as [|c p IH]; simpl; [reflexivity|].
  unfold char_eqb; rewrite N.eqb_refl; exact IH.
Qed.

Lemma isspace_not_s (c : char) : isspace c = true -> char_eqb c 115%N = false.
Proof.
  intros H. unfold char_eqb.
  destruct (N.eqb_spec c 115%N) as [->|]; [discriminate H | reflexivity].
Qed.

(** ** Syntax validator: the error list *)

Lemma In_unclosed (label : string) (n : Z) (e : str) :
  In e (unclosed label n) <-> n <> 0 /\ e = py label ++ str_of_Z n.
Proof.
  unfold unclosed.
  destruct (Z.eqb_spec n 0) as [->|Hn]; simpl.
  - split; [contradiction | intros [H _]; now apply H].
  - split.
    + intros [<-|[]]; now split.
    + intros [_ ->]; now left.
Qed.

Lemma In_style_errors (e : str) (ls : list str) :
  In e (flat_map style_error ls) ->
  exists l, In l ls /\ Re.match_here style_pattern l = false
            /\ e = py "Invalid style syntax: " ++ strip l.
Proof.
  rewrite in_flat_map. intros (l & Hl & He).
  exists l. unfold style_error in He.
  destruct (Re.match_here style_pattern l); simpl in He; [contradiction|].
  destruct He as [<-|[]]. now repeat split.
Qed.

(** The four groups of errors, in the order the validator appends them. *)
Lemma validate_errors (diagram_content : str) :
  fst (validate_mermaid_syntax diagram_content) =
    (unclosed "Unclosed brackets: "
       (count 91%N diagram_content - count 93%N diagram_content)
     ++ unclosed "Unclosed braces: "
          (count 123%N diagram_content - count 125%N diagram_content)
     ++ unclosed "Unclosed parentheses: "
          (count 40%N diagram_content - count 41%N diagram_content))
    ++ match snd (validate_mermaid_syntax diagram_content) with
       | None => [py "No valid diagram type found"]
       | Some _ => []
       end
    ++ match snd (validate_mermaid_syntax diagram_content) with
       | Some t =>
           if negb (existsb (fun pattern => contains pattern diagram_content)
                            arrow_patterns)
              && contains (py "graph") t
           then [py "Graph diagram missing arrow connections"]
           else []
       | None => []
       end
    ++ flat_map style_error
         (filter (fun line => startswith (strip line) (py "style "))
                 (split_nl diagram_content)).
Proof. reflexivity. Qed.

Lemma validate_type (diagram_content : str) :
  snd (validate_mermaid_syntax diagram_content) =
    detect_type (firstn 3 (split_nl diagram_content)).
Proof. reflexivity. Qed.

Lemma error_origin_of (diagram_content e : str) :
  In e (fst (validate_mermaid_syntax diagram_content)) ->
  error_origin diagram_content e.
Proof.
  rewrite validate_errors, !in_app_iff.
  intros [[H|[H|H]]|[H|[H|H]]].
  - now apply from_brackets.
  - now apply from_braces.
  - now apply from_parens.
  - destruct (snd (validate_mermaid_syntax diagram_content)) eqn:Ht;
      [contradiction|].
    destruct H as [<-|[]]. now apply from_type.
  - destruct (snd (validate_mermaid_syntax diagram_content)); [|contradiction].
    destruct (_ && _); [|contradiction].
    destruct H as [<-|[]]. now apply from_arrows.
  - apply In_style_errors in H. destruct H as (l & Hl & Hm & ->).
    apply filter_In in Hl. destruct Hl as [Hin Hs].
    now apply (from_style _ _ l).
Qed.

(** An error that begins with the label of a pair is that pair's error. *)
Ltac other_label H :=
  match type of H with
  | startswith (py _ ++ ?x) _ = true =>
      generalize dependent x; intros x H; vm_compute in H; discriminate H
  | startswith _ _ = true => vm_compute in H; discriminate H
  end.

Ltac by_origin Hin Hs :=
  apply error_origin_of in Hin;
  destruct Hin as [H|H|H|_ H|H|l _ _ _ H];
  try (apply In_unclosed in H; destruct H as [Hn H]);
  subst; try other_label Hs.

(** C5. For each of the pairs [[]], [{}] and [()] on its own, the validator
    reports an unclosed-delimiter error for the pair exactly when the
    number of opening characters minus the number of closing characters,
    over the whole content, is not zero; the error is the pair's label
    followed by the signed difference. *)
Theorem unclosed_delimiters_reported (diagram_content : str) :
  let errors := fst (validate_mermaid_syntax diagram_content) in
  let imbalance open close :=
    count open diagram_content - count close diagram_content in
  (forall e, In e errors /\ startswith e (py "Unclosed brackets: ") = true
     <-> imbalance 91%N 93%N <> 0
         /\ e = py "Unclosed brackets: " ++ str_of_Z (imbalance 91%N 93%N))
  /\ (forall e, In e errors /\ startswith e (py "Unclosed braces: ") = true
     <-> imbalance 123%N 125%N <> 0
         /\ e = py "Unclosed braces: " ++ str_of_Z (imbalance 123%N 125%N))
  /\ (forall e, In e errors /\ startswith e (py "Unclosed parentheses: ") = true
     <-> imbalance 40%N 41%N <> 0
         /\ e = py "Unclosed parentheses: " ++ str_of_Z (imbalance 40%N 41%N)).
Proof.
  cbv zeta.
  split; [|split]; intros e; (split; [intros [Hin Hs]|intros [Hn ->]]).
  - by_origin Hin Hs. now split.
  - split; [|apply startswith_app].
    rewrite validate_errors, !in_app_iff.
    left; left. apply In_unclosed. now split.
  - by_origin Hin Hs. now split.
  - split; [|apply startswith_app].
    rewrite validate_errors, !in_app_iff.
    left; right; left. apply In_unclosed. now split.
  - by_origin Hin Hs. now split.
  - split; [|apply startswith_app].
    rewrite validate_errors, !in_app_iff.
    left; right; right. apply In_unclosed. now split.
Qed.

(** ** Syntax validator: dialect detection *)

Lemma first_type_in_None (line : str) (vtypes : list str) :
  first_type_in line vtypes = None <->
  forall vtype, In vtype vtypes -> contains vtype line = false.
Proof.
  induction vtypes as [|v vs IH]; simpl.
  - split; [intros _ ? [] | reflexivity].
  - destruct (contains v line) eqn:Hc.
    + split; [discriminate|]. intros H.
      rewrite (H v (or_introl eq_refl)) in Hc. discriminate Hc.
    + rewrite IH. split.
      * intros H vtype [<-|Hin]; [exact Hc | now apply H].
      * intros H vtype Hin. apply H. now right.
Qed.

Lemma first_type_in_Some (line : str) (vtypes : list str) (vtype : str) :
  first_type_in line vtypes = Some vtype ->
  In vtype vtypes /\ contains vtype line = true.
Proof.
  induction vtypes as [|v vs IH]; simpl; [discriminate|].
  destruct (contains v line) eqn:Hc.
  - intros [= <-]. split; [now left | exact Hc].
  - intros H. destruct (IH H). split; [now right | assumption].
Qed.

Lemma no_header_iff (line : str) :
  first_type_in line valid_types = None <-> ~ has_header line.
Proof.
  rewrite first_type_in_None. unfold has_header. split.
  - intros H (v & Hin & Hc). rewrite (H v Hin) in Hc. discriminate.
  - intros H v Hin. destruct (contains v line) eqn:Hc; [|reflexivity].
    exfalso. apply H. now exists v.
Qed.

Lemma detect_type_None (lines : list str) :
  detect_type lines = None <->
  forall line, In line lines -> ~ has_header line.
Proof.
  induction lines as [|l ls IH]; cbn [detect_type In].
  - split; [intros _ ? [] | reflexivity].
  - destruct (first_type_in l valid_types) eqn:Hf.
    + split; [discriminate|]. intros H. exfalso.
      apply (H l (or_introl eq_refl)).
      apply first_type_in_Some in Hf. destruct Hf as [Hin Hc].
      exists s. now split.
    + rewrite IH. apply no_header_iff in Hf. split.
      * intros H line [<-|Hin]; [exact Hf | now apply H].
      * intros H line Hin. apply H. now right.
Qed.

(** The first line with a header decides, by the first type of
    [valid_types] that it contains. *)
Lemma detect_type_Some (lines : list str) (vtype : str) :
  detect_type lines = Some vtype ->
  exists before line after,
    lines = before ++ line :: after
    /\ (forall l, In l before -> ~ has_header l)
    /\ first_type_in line valid_types = Some vtype.
Proof.
  induction lines as [|l ls IH]; cbn [detect_type]; [discriminate|].
  destruct (first_type_in l valid_types) eqn:Hf.
  - intros [= <-]. exists [], l, ls. repeat split; [intros ? []| exact Hf].
  - intros H. destruct (IH H) as (b & line & a & -> & Hb & Hl).
    exists (l :: b), line, a. repeat split; [|exact Hl].
    intros l' [<-|Hin]; [now apply no_header_iff | now apply Hb].
Qed.

(** C2, as the code has it. Dialect detection inspects the first 3 lines
    of the content as [split] gives them, blank lines included: a type is
    detected exactly when one of these three lines contains a recognised
    header, the first such line decides, the error "No valid diagram type
    found" is reported exactly when no type is detected, and two contents
    with the same first 3 lines get the same type. *)
Theorem detection_reads_first_three_lines (diagram_content : str) :
  let lines := firstn 3 (split_nl diagram_content) in
  let errors := fst (validate_mermaid_syntax diagram_content) in
  let diagram_type := snd (validate_mermaid_syntax diagram_content) in
  (diagram_type = None <-> forall line, In line lines -> ~ has_header line)
  /\ (forall vtype, diagram_type = Some vtype ->
        exists before line after,
          lines = before ++ line :: after
          /\ (forall l, In l before -> ~ has_header l)
          /\ first_type_in line valid_types = Some vtype)
  /\ (In (py "No valid diagram type found") errors <-> diagram_type = None)
  /\ (forall other,
        firstn 3 (split_nl other) = lines ->
        snd (validate_mermaid_syntax other) = diagram_type).
Proof.
  cbv zeta. rewrite validate_type.
  split; [apply detect_type_None|].
  split; [intros vtype; apply detect_type_Some|].
  split.
  - rewrite <- validate_type. split.
    + intros Hin. apply error_origin_of in Hin.
      destruct Hin as [H|H|H|H _|H|l _ _ _ H];
        try (apply In_unclosed in H; destruct H as [_ H]);
        try exact H;
        exfalso; revert H;
        repeat match goal with
               | |- context [str_of_Z ?n] => generalize (str_of_Z n); intro
               | |- context [strip ?n] => generalize (strip n); intro
               end;
        vm_compute; discriminate.
    + intros Ht. rewrite validate_errors, Ht, !in_app_iff.
      right; left. now left.
  - intros other Ho. now rewrite validate_type, Ho.
Qed.

(** C10. A line of the content that begins with white space and whose
    trimmed text starts with the style keyword is reported as invalid
    style syntax, whatever follows the keyword: the pattern is matched
    against the line as it stands, the line is chosen by its trimmed
    text. *)
Theorem indented_style_line_reported
    (diagram_content line : str) (c : char) (rest : str) :
  In line (split_nl diagram_content) ->
  line = c :: rest ->
  isspace c = true ->
  startswith (strip line) (py "style ") = true ->
  In (py "Invalid style syntax: " ++ strip line)
     (fst (validate_mermaid_syntax diagram_content)).
Proof.
  intros Hin Hline Hc Hs.
  rewrite validate_errors, !in_app_iff.
  right; right; right.
  apply in_flat_map. exists line. split.
  - apply filter_In. now split.
  - unfold style_error.
    replace (Re.match_here style_pattern line) with false; [now left|].
    subst line.
    change (Re.match_here style_pattern (c :: rest))
      with (char_eqb c 115%N
            && Re.match_here (List.tl style_pattern) rest).
    now rewrite (isspace_not_s c Hc).
Qed.

(** ** Diagram extractor *)

Lemma lstrip_split (s : str) :
  exists pre, s = pre ++ lstrip s /\ forallb isspace pre = true.
Proof.
  induction s as [|x s IH]; simpl.
  - now exists [].
  - destruct (isspace x) eqn:Hx.
    + destruct IH as (pre & Hs & Hp). exists (x :: pre). simpl.
      rewrite Hx, Hp. split; [now f_equal | reflexivity].
    + now exists [].
Qed.

Lemma lstrip_head (s : str) (c : char) (rest : str) :
  lstrip s = c :: rest -> isspace c = false.
Proof.
  induction s as [|x s IH]; simpl; [discriminate|].
  destruct (isspace x) eqn:Hx; [exact IH|].
  now intros [= <- _].
Qed.

Lemma forallb_rev {A} (f : A -> bool) (l : list A) :
  forallb f l = true -> forallb f (rev l) = true.
Proof.
  rewrite !forallb_forall. intros H x Hx. apply H. now apply in_rev.
Qed.

Lemma rstrip_split (s : str) :
  exists post, s = rstrip s ++ post /\ forallb isspace post = true.
Proof.
  destruct (lstrip_split (rev s)) as (pre & Hs & Hp).
  exists (rev pre). split; [|now apply forallb_rev].
  unfold rstrip. rewrite <- rev_app_distr, <- Hs. symmetry. apply rev_involutive.
Qed.

Lemma rstrip_last (s front : str) (c : char) :
  rstrip s = front ++ [c] -> isspace c = false.
Proof.
  unfold rstrip. intros H.
  apply (f_equal (@rev char)) in H.
  rewrite rev_involutive, rev_app_distr in H. simpl in H.
  exact (lstrip_head _ _ _ H).
Qed.

(** [strip] removes white space at both ends and nothing else. *)
Lemma strip_spec (s : str) :
  exists pre post,
    s = pre ++ strip s ++ post
    /\ forallb isspace pre = true
    /\ forallb isspace post = true
    /\ (forall c rest, strip s = c :: rest -> isspace c = false)
    /\ (forall front c, strip s = front ++ [c] -> isspace c = false).
Proof.
  destruct (lstrip_split s) as (pre & Hs & Hpre).
  destruct (rstrip_split (lstrip s)) as (post & Hl & Hpost).
  exists pre, post. fold (strip s) in Hl.
  repeat split; try assumption.
  - now rewrite <- Hl.
  - intros c rest Hc. rewrite Hc in Hl. simpl in Hl.
    exact (lstrip_head _ _ _ Hl).
  - intros front c Hc. exact (rstrip_last _ _ _ Hc).
Qed.

Lemma map_snd_enumerate {A} (i : nat) (l : list A) :
  List.map snd (enumerate_from i l) = l.
Proof.
  revert i. induction l as [|a l IH]; intros i; simpl; [reflexivity|].
  now rewrite IH.
Qed.

(** C4, as the code has it. The content of every extracted diagram is the
    group of its match with the white space at both ends removed: the
    group is white space, then the content, then white space, and the
    content neither begins nor ends with a white-space character; the
    text in between is kept as it is. *)
Theorem content_is_stripped_group (f : MdFile) (text : str) :
  List.map content (diagrams_of f text) = List.map strip (Re.findall text)
  /\ forall d, In d (diagrams_of f text) ->
       exists group pre post,
         In group (Re.findall text)
         /\ group = pre ++ content d ++ post
         /\ forallb isspace pre = true
         /\ forallb isspace post = true
         /\ (forall c rest, content d = c :: rest -> isspace c = false)
         /\ (forall front c, content d = front ++ [c] -> isspace c = false).
Proof.
  split.
  - unfold diagrams_of. rewrite map_map. simpl.
    rewrite <- (map_snd_enumerate O (Re.findall text)) at 2.
    now rewrite map_map.
  - intros d Hd. unfold diagrams_of in Hd.
    apply in_map_iff in Hd. destruct Hd as ([i m] & <- & Him).
    assert (Hm : In m (Re.findall text)).
    { rewrite <- (map_snd_enumerate O (Re.findall text)).
      apply in_map_iff. now exists (i, m). }
    destruct (strip_spec m) as (pre & post & H1 & H2 & H3 & H4 & H5).
    exists m, pre, post. simpl. repeat split; assumption.
Qed.

(** ** Render probe *)

Lemma str_eqb_refl (a : str) : str_eqb a a = true.
Proof.
  induction a as [|x a IH]; simpl; [reflexivity|].
  unfold char_eqb. now rewrite N.eqb_refl.
Qed.

Lemma mem_str_head (n : str) (l : list str) : mem_str n (n :: l) = true.
Proof. unfold mem_str. simpl. now rewrite str_eqb_refl. Qed.

Lemma mem_str_remove (n : str) (l : list str) :
  mem_str n (remove_str n l) = false.
Proof.
  unfold mem_str, remove_str.
  induction l as [|x l IH]; simpl; [reflexivity|].
  destruct (str_eqb n x) eqn:Hx; simpl; [exact IH|].
  now rewrite Hx.
Qed.

Lemma remove_str_absent (n : str) (l : list str) :
  mem_str n l = false -> remove_str n l = l.
Proof.
  unfold mem_str, remove_str.
  induction l as [|x l IH]; simpl; [reflexivity|].
  destruct (str_eqb n x); simpl; [discriminate|].
  intros H. now rewrite IH.
Qed.

Lemma remove_str_head (n : str) (l : list str) :
  remove_str n (n :: l) = remove_str n l.
Proof. unfold remove_str. simpl. now rewrite str_eqb_refl. Qed.

Lemma remove_str_incl (n : str) (l : list str) : incl (remove_str n l) l.
Proof. intros x Hx. apply filter_In in Hx. now destruct Hx. Qed.

(** One tactic runs the probe through every answer of the outside
    world. *)
Ltac run_probe pe :=
  unfold test_mermaid_rendering, probe_outcome, removal_failure,
    named_temporary_file, subprocess_run, os_unlink, unlink_refused,
    input_fate_of, try_except, try_finally, bind, lift_result,
    modify, gets, raise, ret;
  destruct (pe_run pe) as [[?m|?m|?m]|?p];
    [ | | |
      destruct (input_fate p) as [| |?e];
        destruct (10 <? elapsed p);
        try destruct (returncode (completed p) =? 0)];
    repeat (cbn [fst snd tmp_files report_file trace log set_tmp];
            rewrite ?mem_str_head, ?mem_str_remove, ?remove_str_head).

(** The probe never raises, and its value is the outcome listed for the
    answers of the outside world. *)
Lemma probe_returns (pe : ProbeEnv) (diagram_content : str) (s : State) :
  fst (test_mermaid_rendering pe diagram_content s) = inr (probe_outcome pe).
Proof.
  destruct (pe_tempfile pe) as [e|name] eqn:Hn.
  - unfold test_mermaid_rendering, probe_outcome, named_temporary_file,
      try_except, bind, lift_result, raise, ret. now rewrite Hn.
  - destruct (pe_write pe) as [e|] eqn:Hw.
    + unfold test_mermaid_rendering, probe_outcome, named_temporary_file,
        try_except, bind, lift_result, modify, raise, ret.
      now rewrite Hn, Hw.
    + run_probe pe; rewrite Hn, Hw;
        repeat (cbn [fst snd tmp_files report_file trace log set_tmp];
                rewrite ?mem_str_head, ?mem_str_remove, ?remove_str_head);
        reflexivity.
Qed.

(** When [f.write] does not raise and the renderer does not hold the
    file, the temporary file is gone at the end of the probe, however the
    renderer ended. *)
Lemma temp_file_removed_after_run
    (pe : ProbeEnv) (diagram_content name : str) (s : State) :
  pe_tempfile pe = inr name ->
  pe_write pe = None ->
  unlink_refused pe = None ->
  mem_str name (tmp_files (snd (test_mermaid_rendering pe diagram_content s)))
  = false.
Proof.
  intros Hn Hw Hu. revert Hu.
  run_probe pe; rewrite Hn, Hw;
    repeat (cbn [fst snd tmp_files report_file trace log set_tmp];
            rewrite ?mem_str_head, ?mem_str_remove, ?remove_str_head);
    intros Hu; try discriminate Hu;
    first [reflexivity | apply mem_str_remove].
Qed.

(** ** Orchestrator *)

Lemma extract_returns (f : MdFile) (s : State) :
  exists s',
    extract_mermaid_diagrams f s = (inr (diagrams_in [f]), s').
Proof.
  unfold extract_mermaid_diagrams, open_read, try_except, bind, lift_result,
    modify, raise, ret, diagrams_in.
  simpl. rewrite app_nil_r.
  destruct (md_read f) as [e|text]; eexists; reflexivity.
Qed.

Lemma diagrams_in_cons (f : MdFile) (files : list MdFile) :
  diagrams_in (f :: files) = diagrams_in [f] ++ diagrams_in files.
Proof. unfold diagrams_in. simpl. now rewrite app_nil_r. Qed.

(** Extraction reads every file and never raises. *)
Lemma extract_all_returns (files : list MdFile) (acc : list Diagram) (s : State) :
  exists s',
    extract_all files acc s = (inr (acc ++ diagrams_in files), s').
Proof.
  revert acc s. induction files as [|f files IH]; intros acc s.
  - exists s. simpl. unfold ret, diagrams_in. simpl. now rewrite app_nil_r.
  - cbn [extract_all]. unfold bind.
    destruct (extract_returns f s) as (s1 & ->).
    destruct (IH (acc ++ diagrams_in [f]) s1) as (s2 & ->).
    exists s2. now rewrite (diagrams_in_cons f files), app_assoc.
Qed.

Lemma errors_added (errors : list str) (total : Z) :
  match errors with
  | [] => total
  | _ :: _ => total + Z.of_nat (length errors)
  end = total + Z.of_nat (length errors).
Proof. destruct errors; [simpl; lia | reflexivity]. Qed.

(** The validation loop runs every probe, never raises, appends one result
    per diagram, and counts what the specification calls the total error
    count. *)
Lemma validate_all_returns
    (env : Env) (diagrams : list Diagram) (k : nat) (total : Z)
    (results : list ValidationResult) (s : State) :
  exists s',
    validate_all env k diagrams total results s =
      (inr (total + total_error_count (results_for env k diagrams),
            results ++ results_for env k diagrams), s').
Proof.
  revert k total results s.
  induction diagrams as [|d ds IH]; intros k total results s.
  - exists s. simpl. unfold ret. now rewrite Z.add_0_r, app_nil_r.
  - cbn [validate_all results_for total_error_count].
    destruct (validate_mermaid_syntax (content d)) as [errors t].
    cbn [fst snd]. unfold bind.
    pose proof (probe_returns (probe_env env k) (content d) s) as Hp.
    destruct (test_mermaid_rendering (probe_env env k) (content d) s)
      as [r s1].
    simpl in Hp. subst r.
    destruct (probe_outcome (probe_env env k)) as [render_result message].
    cbn [fst snd]. rewrite errors_added.
    match goal with
    | |- context [validate_all env (S k) ds ?t ?r s1] =>
        destruct (IH (S k) t r s1) as (s2 & ->)
    end.
    exists s2. unfold result_errors. cbn [syntax_errors render_test].
    rewrite <- app_assoc. cbn [app].
    do 2 f_equal. f_equal.
    destruct render_result as [[|]|]; lia.
Qed.


(** What a run that completes returns and leaves on disk. *)
Lemma main_completes (env : Env) (s : State) :
  completes env ->
  exists s',
    main env s =
      (inr (Some (total_error_count
                    (results_for env O (diagrams_in (docs_glob env))) =? 0)),
       s')
    /\ report_file s' = Some (results_for env O (diagrams_in (docs_glob env))).
Proof.
  intros (Hd & Hg & Hr). unfold main. rewrite Hd. cbn [negb].
  destruct (docs_glob env) as [|f files] eqn:Hfiles; [contradiction|].
  unfold bind.
  destruct (extract_all_returns (f :: files) [] s) as (s1 & ->).
  cbn [app].
  destruct (validate_all_returns env (diagrams_in (f :: files)) O 0 [] s1)
    as (s2 & ->).
  cbn [app]. unfold save_results. rewrite Hr. unfold modify, ret.
  eexists. split; [reflexivity|]. reflexivity.
Qed.

Lemma run_completes (env : Env) (s : State) :
  completes env ->
  exists s',
    run env s =
      (if total_error_count
            (results_for env O (diagrams_in (docs_glob env))) =? 0
       then 0 else 1, s')
    /\ report_file s' = Some (results_for env O (diagrams_in (docs_glob env))).
Proof.
  intros Hc. destruct (main_completes env s Hc) as (s' & Hm & Hr).
  exists s'. split; [|exact Hr].
  unfold run. rewrite Hm. simpl.
  now destruct (total_error_count _ =? 0).
Qed.



(** C1, as the code has it. In every run that gets past discovery and
    writes its report, the number that [main] counts is the sum of the
    lengths of [syntax_errors] over all results plus one for each result
    whose [render_test] is [False]; a [render_test] of [None] adds
    nothing; and the exit status is 0 exactly when this number is 0. *)
Theorem exit_status_reflects_total_errors (env : Env) (s : State) :
  completes env ->
  (forall diagrams s0,
     exists total results s1,
       validate_all env O diagrams 0 [] s0 = (inr (total, results), s1)
       /\ total = total_error_count results)
  /\ (forall r, render_test r = None ->
                result_errors r = Z.of_nat (length (syntax_errors r)))
  /\ exit_reflects_errors env s.
Proof.
  intros Hc. split; [|split].
  - intros diagrams s0.
    destruct (validate_all_returns env diagrams O 0 [] s0) as (s1 & H).
    do 3 eexists. split; [exact H | reflexivity].
  - intros r Hr. unfold result_errors. rewrite Hr. lia.
  - unfold exit_reflects_errors.
    destruct (run_completes env s Hc) as (s' & -> & Hr).
    unfold results_on_disk. rewrite Hr.
    destruct (Z.eqb_spec
                (total_error_count
                   (results_for env O (diagrams_in (docs_glob env)))) 0)
      as [->|Hne].
    + now split.
    + split; [discriminate | contradiction].
Qed.

(** C7. When the documentation root does not exist, or exists and holds
    no file with the target extension, the run ends with exit status 1
    and leaves the state as it found it: no file is read, no temporary
    file is made, no renderer is started and no report is written. *)
Theorem discovery_failure_ends_run (env : Env) (s : State) :
  docs_exists env = false \/ docs_glob env = [] ->
  run env s = (1, s).
Proof.
  intros [Hd|Hg]; unfold run, main.
  - now rewrite Hd.
  - rewrite Hg. now destruct (docs_exists env).
Qed.




(** ** Substrings *)

Lemma strip_prefix_Some (p s r : str) :
  strip_prefix p s = Some r <-> s = p ++ r.
Proof.
  revert s. induction p as [|c p IH]; intros s; simpl.
  - split; [now intros [= ->] | now intros ->].
  - destruct s as [|x s]; [split; discriminate|].
    unfold char_eqb. destruct (N.eqb_spec x c) as [->|Hne].
    + rewrite IH. split; [now intros -> | now intros [= ->]].
    + split; [discriminate | intros [= H _]; contradiction].
Qed.

Lemma startswith_iff (s p : str) :
  startswith s p = true <-> exists r, s = p ++ r.
Proof.
  unfold startswith. destruct (strip_prefix p s) as [r|] eqn:H.
  - apply strip_prefix_Some in H. split; [now exists r | reflexivity].
  - split; [discriminate|]. intros (r & Hr).
    apply strip_prefix_Some in Hr. rewrite Hr in H. discriminate.
Qed.

(** [find_sub] gives the offset of the first occurrence. *)
Lemma find_sub_Some (sub s : str) (j : nat) :
  find_sub sub s = Some j ->
  (exists a b, s = a ++ sub ++ b /\ length a = j)
  /\ forall a b, s = a ++ sub ++ b -> (j <= length a)%nat.
Proof.
  revert j. induction s as [|x s IH]; intros j; simpl.
  - destruct (startswith [] sub) eqn:Hs; [|discriminate].
    intros [= <-]. split; [|intros; lia].
    apply startswith_iff in Hs. destruct Hs as (r & Hr).
    exists [], r. now split.
  - destruct (startswith (x :: s) sub) eqn:Hs.
    + intros [= <-]. split; [|intros; lia].
      apply startswith_iff in Hs. destruct Hs as (r & Hr).
      exists [], r. now split.
    + destruct (find_sub sub s) as [i|] eqn:Hf; [|discriminate].
      simpl. intros [= <-].
      destruct (IH i eq_refl) as ((a & b & -> & Ha) & Hmin).
      split.
      * exists (x :: a), b. simpl. now rewrite Ha.
      * intros a' b' H'. destruct a' as [|y a'].
        -- exfalso. simpl in H'.
           assert (startswith (x :: a ++ sub ++ b) sub = true)
             by (apply startswith_iff; now exists b').
           congruence.
        -- simpl in H'. injection H' as _ H'.
           specialize (Hmin a' b' H'). simpl. lia.
Qed.

Lemma find_sub_None (sub s : str) :
  find_sub sub s = None -> forall a b, s <> a ++ sub ++ b.
Proof.
  induction s as [|x s IH]; simpl.
  - destruct (startswith [] sub) eqn:Hs; [discriminate|].
    intros _ a b H. destruct a as [|y a]; [|discriminate].
    assert (startswith [] sub = true) by (apply startswith_iff; now exists b).
    congruence.
  - destruct (startswith (x :: s) sub) eqn:Hs; [discriminate|].
    destruct (find_sub sub s) eqn:Hf; [discriminate|].
    intros _ a b H. destruct a as [|y a].
    + assert (startswith (x :: s) sub = true)
        by (apply startswith_iff; now exists b).
      congruence.
    + simpl in H. injection H as _ H. exact (IH eq_refl a b H).
Qed.

(** [sub in s] holds exactly when [s] has [sub] somewhere inside. *)
Lemma contains_iff (sub s : str) :
  contains sub s = true <-> exists a b, s = a ++ sub ++ b.
Proof.
  unfold contains. destruct (find_sub sub s) as [j|] eqn:Hf.
  - apply find_sub_Some in Hf. destruct Hf as ((a & b & H & _) & _).
    split; [now exists a, b | reflexivity].
  - split; [discriminate|]. intros (a & b & H).
    exfalso. exact (find_sub_None _ _ Hf a b H).
Qed.

Lemma firstn_length_app {A} (a b : list A) : firstn (length a) (a ++ b) = a.
Proof.
  induction a as [|x a IH]; simpl; [now destruct b | now rewrite IH].
Qed.

(** ** The fence pattern *)

Lemma finditer_from_spec (s : str) :
  forall skip pos o g,
    In (o, g) (Re.finditer_from skip pos s) ->
    exists before after,
      s = before ++ Re.fence_open ++ g ++ Re.fence_close ++ after
      /\ o = (pos + length before + length Re.fence_open)%nat
      /\ (skip <= length before)%nat
      /\ contains Re.fence_close g = false.
Proof.
  induction s as [|c tl IH]; intros skip pos o g; [intros []|].
  assert (Hstep : forall k,
             In (o, g) (Re.finditer_from k (S pos) tl) ->
             exists before after,
               c :: tl = before ++ Re.fence_open ++ g ++ Re.fence_close ++ after
               /\ o = (pos + length before + length Re.fence_open)%nat
               /\ (S k <= length before)%nat
               /\ contains Re.fence_close g = false).
  { intros k Hin.
    destruct (IH k (S pos) o g Hin) as (b & a & -> & -> & Hk & Hg).
    exists (c :: b), a. simpl. repeat split; [lia | lia | exact Hg]. }
  cbn [Re.finditer_from].
  destruct skip as [|k].
  - destruct (strip_prefix Re.fence_open (c :: tl)) as [rest|] eqn:Hp.
    + destruct (find_sub Re.fence_close rest) as [j|] eqn:Hf.
      * intros [[= <- <-]|Hin].
        -- apply strip_prefix_Some in Hp.
           destruct (find_sub_Some _ _ _ Hf) as ((a & b & Hr & Ha) & Hmin).
           exists [], b. rewrite Hp, Hr, <- Ha, firstn_length_app.
           repeat split; [simpl; lia | lia |].
           destruct (contains Re.fence_close a) eqn:Hc; [|reflexivity].
           apply contains_iff in Hc. destruct Hc as (a1 & a2 & Ha12).
           exfalso. subst a.
           specialize (Hmin a1 (a2 ++ Re.fence_close ++ b)).
           rewrite Hr, <- !app_assoc in Hmin. specialize (Hmin eq_refl).
           rewrite !length_app in Ha. simpl in Ha. lia.
        -- destruct (Hstep _ Hin) as (b & a & H1 & H2 & H3 & H4).
           exists b, a. repeat split; [assumption | assumption | lia | assumption].
      * intros Hin. destruct (Hstep _ Hin) as (b & a & H1 & H2 & H3 & H4).
        exists b, a. repeat split; [assumption | assumption | lia | assumption].
    + intros Hin. destruct (Hstep _ Hin) as (b & a & H1 & H2 & H3 & H4).
      exists b, a. repeat split; [assumption | assumption | lia | assumption].
  - intros Hin. exact (Hstep _ Hin).
Qed.

Lemma finditer_from_sorted (s : str) :
  forall skip pos,
    Sorted.StronglySorted after_match (Re.finditer_from skip pos s).
Proof.
  induction s as [|c tl IH]; intros skip pos; [constructor|].
  cbn [Re.finditer_from].
  destruct skip as [|k]; [|apply IH].
  destruct (strip_prefix Re.fence_open (c :: tl)) as [rest|] eqn:Hp;
    [|apply IH].
  destruct (find_sub Re.fence_close rest) as [j|] eqn:Hf; [|apply IH].
  constructor; [apply IH|].
  apply Forall_forall. intros [o g] Hin.
  apply finditer_from_spec in Hin.
  destruct Hin as (b & a & _ & -> & Hk & _).
  destruct (find_sub_Some _ _ _ Hf) as ((a1 & b1 & Hr & Ha) & _).
  unfold after_match. cbn [fst snd].
  rewrite Hr, <- Ha, firstn_length_app.
  change (length Re.fence_open) with 11%nat in *.
  change (length Re.fence_close) with 4%nat in *.
  simpl in Hk. lia.
Qed.

(** ** Numbers in identifiers *)

Lemma py_inj (a b : string) : py a = py b -> a = b.
Proof.
  unfold py. intros H.
  rewrite <- (string_of_list_ascii_of_string a),
          <- (string_of_list_ascii_of_string b).
  f_equal.
  revert H. generalize (list_ascii_of_string a) (list_ascii_of_string b).
  induction l as [|x l IH]; intros [|y l']; simpl; try discriminate;
    [reflexivity|].
  intros [= Hxy Hl]. f_equal; [|now apply IH].
  rewrite <- (ascii_N_embedding x), <- (ascii_N_embedding y).
  now rewrite Hxy.
Qed.

Lemma to_int_not_nil (z : Z) :
  Z.to_int z <> Decimal.Pos Decimal.Nil /\ Z.to_int z <> Decimal.Neg Decimal.Nil.
Proof.
  destruct z as [|p|p]; simpl; split; try discriminate;
    intros [= H]; exact (Unsigned.to_uint_nonnil p H).
Qed.

(** Two integers with the same decimal text are equal. *)
Lemma str_of_Z_inj (a b : Z) : str_of_Z a = str_of_Z b -> a = b.
Proof.
  unfold str_of_Z. intros H. apply py_inj in H.
  apply DecimalZ.to_int_inj.
  destruct (to_int_not_nil a) as [Ha1 Ha2], (to_int_not_nil b) as [Hb1 Hb2].
  pose proof (NilZero.isi _ Ha1 Ha2) as Ia.
  pose proof (NilZero.isi _ Hb1 Hb2) as Ib.
  rewrite H in Ia. rewrite Ia in Ib. now injection Ib.
Qed.

Lemma str_of_nat_inj (a b : nat) : str_of_nat a = str_of_nat b -> a = b.
Proof.
  unfold str_of_nat. intros H. apply str_of_Z_inj in H. lia.
Qed.

(** ** Diagram extractor: the records *)

Lemma nth_error_enumerate {A} (l : list A) :
  forall k i,
    nth_error (enumerate_from k l) i
    = option_map (fun a => ((k + i)%nat, a)) (nth_error l i).
Proof.
  induction l as [|a l IH]; intros k [|i]; simpl; try reflexivity.
  - now rewrite Nat.add_0_r.
  - rewrite IH. now replace (S k + i)%nat with (k + S i)%nat by lia.
Qed.

Lemma diagrams_of_nth (f : MdFile) (text : str) (i : nat) :
  nth_error (diagrams_of f text) i
  = option_map (mk_diagram f text i) (nth_error (Re.findall text) i).
Proof.
  unfold diagrams_of. rewrite nth_error_map, nth_error_enumerate.
  now destruct (nth_error (Re.findall text) i).
Qed.

Lemma diagrams_of_length (f : MdFile) (text : str) :
  length (diagrams_of f text) = length (Re.findall text).
Proof.
  unfold diagrams_of. rewrite length_map.
  rewrite <- (map_snd_enumerate O (Re.findall text)) at 2.
  now rewrite length_map.
Qed.

Lemma count_nonneg (c : char) (s : str) : 0 <= count c s.
Proof.
  induction s as [|x s IH]; simpl; [lia|].
  destruct (char_eqb x c); lia.
Qed.

Lemma count_app (c : char) (a b : str) :
  count c (a ++ b) = count c a + count c b.
Proof.
  induction a as [|x a IH]; simpl; [reflexivity|]. rewrite IH. lia.
Qed.

Lemma count_firstn_le (c : char) (s : str) (j o : nat) :
  (j <= o)%nat -> count c (firstn j s) <= count c (firstn o s).
Proof.
  intros Hjo.
  replace j with (Nat.min j o) by lia.
  rewrite <- firstn_firstn.
  rewrite <- (firstn_skipn j (firstn o s)) at 2.
  rewrite count_app.
  pose proof (count_nonneg c (skipn j (firstn o s))). lia.
Qed.

Lemma skipn_app_le {A} (n : nat) (a b : list A) :
  (n <= length a)%nat -> skipn n (a ++ b) = skipn n a ++ b.
Proof.
  intros H. rewrite skipn_app.
  replace (n - length a)%nat with O by lia. reflexivity.
Qed.

Lemma finditer_from_complete (before body after : str) :
  forall s pos,
    s = before ++ Re.fence_open ++ body ++ Re.fence_close ++ after ->
    Re.finditer_from O pos s <> [].
Proof.
  induction before as [|x before IH]; intros s pos Hs.
  - assert (Hp : strip_prefix Re.fence_open s
                 = Some (body ++ Re.fence_close ++ after))
      by now apply strip_prefix_Some.
    destruct s as [|c tl]; [discriminate Hs|].
    cbn [Re.finditer_from]. rewrite Hp.
    destruct (find_sub Re.fence_close (body ++ Re.fence_close ++ after))
      eqn:Hf; [discriminate|].
    exfalso. exact (find_sub_None _ _ Hf body after eq_refl).
  - destruct s as [|c tl]; [discriminate Hs|].
    assert (Htl : tl = before ++ Re.fence_open ++ body
                         ++ Re.fence_close ++ after)
      by (cbn [app] in Hs; now injection Hs).
    cbn [Re.finditer_from].
    destruct (strip_prefix Re.fence_open (c :: tl)) as [rest|] eqn:Hp;
      [|now apply (IH tl)].
    destruct (find_sub Re.fence_close rest) eqn:Hf; [discriminate|].
    exfalso. apply strip_prefix_Some in Hp.
    apply (find_sub_None _ _ Hf
             (skipn (length Re.fence_open)
                    ((x :: before) ++ Re.fence_open ++ body)) after).
    assert (Hr : rest = skipn (length Re.fence_open) (c :: tl)).
    { rewrite Hp, skipn_app, skipn_all, Nat.sub_diag. reflexivity. }
    rewrite Hr, Hs.
    replace ((x :: before) ++ Re.fence_open ++ body ++ Re.fence_close ++ after)
      with (((x :: before) ++ Re.fence_open ++ body)
              ++ Re.fence_close ++ after)
      by (now rewrite <- !app_assoc).
    apply skipn_app_le.
    rewrite !length_app. cbn [length]. lia.
Qed.

(** ** Diagram extractor: what it finds *)

Lemma findall_nth (text : str) (i : nat) :
  nth_error (Re.findall text) i
  = option_map snd (nth_error (Re.finditer text) i).
Proof. unfold Re.findall. apply nth_error_map. Qed.

Lemma finditer_fenced (text : str) (o : nat) (g : str) :
  In (o, g) (Re.finditer text) ->
  fenced_at text o g /\ contains Re.fence_close g = false.
Proof.
  intros Hin. apply finditer_from_spec in Hin.
  destruct Hin as (b & a & Ht & Ho & _ & Hg).
  split; [|exact Hg]. exists b, a. split; [exact Ht | exact Ho].
Qed.

(** The content of every diagram of a file is taken from between an
    opening fence line and the first closing fence after it: the text it
    was stripped from is preceded by the opening fence, followed by the
    closing fence, and has no closing fence inside. *)
Theorem diagram_comes_from_fenced_block (f : MdFile) (text : str) (d : Diagram) :
  In d (diagrams_of f text) ->
  exists offset group,
    fenced_at text offset group
    /\ contains Re.fence_close group = false
    /\ content d = strip group
    /\ file d = md_str f.
Proof.
  intros Hd. apply In_nth_error in Hd. destruct Hd as (i & Hi).
  rewrite diagrams_of_nth, findall_nth in Hi.
  destruct (nth_error (Re.finditer text) i) as [[o g]|] eqn:Hn;
    [|discriminate].
  simpl in Hi. injection Hi as <-.
  apply nth_error_In in Hn. apply finditer_fenced in Hn.
  destruct Hn as [Hf Hc]. exists o, g. now repeat split.
Qed.

(** The matches of the fence pattern are found in the order of the file
    and do not overlap: each begins after the closing fence of the one
    before and after a further opening fence. *)
Theorem matches_in_order_without_overlap (text : str) :
  Sorted.StronglySorted after_match (Re.finditer text).
Proof. apply finditer_from_sorted. Qed.

(** A file gives no diagram exactly when its text has no opening fence
    line that is followed, somewhere later, by a closing fence. *)
Theorem no_diagram_iff_no_fenced_block (f : MdFile) (text : str) :
  diagrams_of f text = [] <->
  ~ exists before body after,
      text = before ++ Re.fence_open ++ body ++ Re.fence_close ++ after.
Proof.
  split.
  - intros He (before & body & after & Ht).
    apply (finditer_from_complete before body after text O Ht).
    fold (Re.finditer text).
    pose proof (diagrams_of_length f text) as Hl.
    rewrite He in Hl. unfold Re.findall in Hl. rewrite length_map in Hl.
    destruct (Re.finditer text); [reflexivity | discriminate Hl].
  - intros Hno.
    pose proof (diagrams_of_length f text) as Hl.
    unfold Re.findall in Hl. rewrite length_map in Hl.
    destruct (Re.finditer text) as [|[o g] ms] eqn:Hm.
    + now destruct (diagrams_of f text).
    + exfalso. apply Hno.
      destruct (finditer_fenced text o g) as [(b & a & Ht & _) _].
      { rewrite Hm. now left. }
      now exists b, g, a.
Qed.

(** The diagrams of a file are as many as the matches; the [i]-th has the
    identifier [<file name>_<i>], counted from 0, and the path of the
    file; no two diagrams of a file have the same identifier. *)
Theorem diagram_ids_numbered (f : MdFile) (text : str) :
  length (diagrams_of f text) = length (Re.findall text)
  /\ (forall i d,
        nth_error (diagrams_of f text) i = Some d ->
        id d = md_name f ++ py "_" ++ str_of_nat i /\ file d = md_str f)
  /\ NoDup (List.map id (diagrams_of f text)).
Proof.
  split; [apply diagrams_of_length|]. split.
  - intros i d Hi. rewrite diagrams_of_nth in Hi.
    destruct (nth_error (Re.findall text) i); [|discriminate].
    simpl in Hi. injection Hi as <-. now split.
  - apply NoDup_nth_error. intros i j Hi Hij.
    rewrite length_map in Hi.
    rewrite !nth_error_map, !diagrams_of_nth in Hij.
    rewrite diagrams_of_length in Hi.
    destruct (nth_error (Re.findall text) i) eqn:Hgi.
    2:{ apply nth_error_None in Hgi. lia. }
    destruct (nth_error (Re.findall text) j); [|discriminate].
    simpl in Hij. injection Hij as Hij.
    apply app_inv_head in Hij. injection Hij as Hij.
    now apply str_of_nat_inj.
Qed.

(** The line number of a diagram is the line of the first place in the
    file where the text of its block occurs: it is at least 1, never
    after the line on which the block itself begins, and equal to it when
    the text does not occur earlier in the file. *)
Theorem line_number_is_first_occurrence
    (f : MdFile) (text : str) (i o : nat) (g : str) :
  nth_error (Re.finditer text) i = Some (o, g) ->
  exists d j,
    nth_error (diagrams_of f text) i = Some d
    /\ find_sub g text = Some j
    /\ (j <= o)%nat
    /\ line_number d = line_of_offset text j
    /\ 1 <= line_number d <= line_of_offset text o.
Proof.
  intros Hn.
  pose proof (nth_error_In _ _ Hn) as Hin.
  apply finditer_fenced in Hin. destruct Hin as [(b & a & Ht & Ho) _].
  assert (Hocc : text = (b ++ Re.fence_open) ++ g ++ Re.fence_close ++ a)
    by (now rewrite <- app_assoc).
  destruct (find_sub g text) as [j|] eqn:Hf.
  2:{ exfalso. exact (find_sub_None _ _ Hf _ _ Hocc). }
  destruct (find_sub_Some _ _ _ Hf) as (_ & Hmin).
  specialize (Hmin _ _ Hocc). rewrite length_app, <- Ho in Hmin.
  exists (mk_diagram f text i g), j.
  assert (Hl : line_number (mk_diagram f text i g) = line_of_offset text j).
  { unfold mk_diagram, line_of_offset, find, slice_to. cbn [line_number].
    rewrite Hf.
    replace (Z.of_nat j <? 0) with false by (symmetry; apply Z.ltb_ge; lia).
    now rewrite Nat2Z.id. }
  split; [|split; [reflexivity|split; [exact Hmin|split; [exact Hl|]]]].
  - rewrite diagrams_of_nth, findall_nth, Hn. reflexivity.
  - rewrite Hl. unfold line_of_offset.
    pose proof (count_nonneg NL (firstn j text)).
    pose proof (count_firstn_le NL text j o Hmin). lia.
Qed.

(** ** Syntax validator: the arrow check *)

Lemma detected_type_valid (diagram_content t : str) :
  snd (validate_mermaid_syntax diagram_content) = Some t ->
  In t valid_types.
Proof.
  rewrite validate_type. intros H.
  apply detect_type_Some in H. destruct H as (_ & line & _ & _ & _ & H).
  now apply first_type_in_Some in H.
Qed.

Lemma no_arrows_iff (diagram_content : str) :
  existsb (fun pattern => contains pattern diagram_content) arrow_patterns
  = false
  <-> forall pattern, In pattern arrow_patterns ->
                      contains pattern diagram_content = false.
Proof.
  split.
  - intros H pattern Hin.
    destruct (contains pattern diagram_content) eqn:Hc; [|reflexivity].
    rewrite <- H. symmetry. apply existsb_exists. now exists pattern.
  - intros H.
    destruct (existsb _ arrow_patterns) eqn:He; [|reflexivity].
    apply existsb_exists in He. destruct He as (p & Hin & Hc).
    now rewrite (H p Hin) in Hc.
Qed.

Lemma graph_family (t : str) :
  In t valid_types ->
  contains (py "graph") t = true <-> t = py "graph TD" \/ t = py "graph LR".
Proof.
  intros [<-|[<-|[<-|[<-|[<-|[<-|[<-|[]]]]]]]]; vm_compute;
    (split; [intros H; try discriminate H; auto
            | intros [H|H]; try discriminate H; reflexivity]).
Qed.

(** Two different messages of the validator are never equal, whatever
    number or line they carry. *)
Ltac distinct_messages H :=
  exfalso; revert H;
  repeat match goal with
         | |- context [str_of_Z ?n] => generalize (str_of_Z n); intro
         | |- context [strip ?n] => generalize (strip n); intro
         end;
  vm_compute; discriminate.

Ltac not_from_other_check H :=
  first [ apply In_unclosed in H; destruct H as [_ H]
        | apply In_style_errors in H; destruct H as (? & _ & _ & H)
        | destruct H as [H|[]]
        | idtac ];
  distinct_messages H.

(** The error about missing arrows is reported exactly when the detected
    type is [graph TD] or [graph LR] and the content holds none of the six
    arrow tokens; for every other type, and when no type is detected, the
    check does not fire. *)
Theorem arrow_error_iff (diagram_content : str) :
  In (py "Graph diagram missing arrow connections")
     (fst (validate_mermaid_syntax diagram_content))
  <-> (snd (validate_mermaid_syntax diagram_content) = Some (py "graph TD")
       \/ snd (validate_mermaid_syntax diagram_content) = Some (py "graph LR"))
      /\ forall pattern, In pattern arrow_patterns ->
                         contains pattern diagram_content = false.
Proof.
  rewrite <- no_arrows_iff, validate_errors, !in_app_iff.
  destruct (snd (validate_mermaid_syntax diagram_content)) as [t|] eqn:Ht.
  - pose proof (graph_family t (detected_type_valid _ _ Ht)) as Hg.
    destruct (existsb _ arrow_patterns) eqn:He; cbn [negb andb].
    + split; [|intros [_ H]; discriminate H].
      intros [[H|[H|H]]|[[]|[[]|H]]]; not_from_other_check H.
    + destruct (contains (py "graph") t) eqn:Hc.
      * split; [intros _|intros _; right; right; left; now left].
        split; [|reflexivity].
        destruct (proj1 Hg eq_refl) as [->| ->]; [now left | now right].
      * split.
        -- intros [[H|[H|H]]|[[]|[[]|H]]]; not_from_other_check H.
        -- intros [H _].
           assert (Ht' : t = py "graph TD" \/ t = py "graph LR")
             by (destruct H as [[= ->]|[= ->]]; [now left | now right]).
           apply Hg in Ht'. discriminate Ht'.
  - split.
    + intros [[H|[H|H]]|[H|[[]|H]]]; not_from_other_check H.
    + intros [[H|H] _]; discriminate H.
Qed.

(** ** The style pattern *)

Lemma match_plus (cls : char -> bool) (re : list Re.atom) (s : str) :
  Re.match_here (Re.Plus cls :: re) s = true <->
  exists a b, s = a ++ b /\ a <> [] /\ forallb cls a = true
              /\ Re.match_here re b = true.
Proof.
  induction s as [|x s IH].
  - split; [discriminate|].
    intros (a & b & H & Ha & _). destruct a; [contradiction | discriminate H].
  - change (Re.match_here (Re.Plus cls :: re) (x :: s))
      with (cls x && (Re.match_here (Re.Plus cls :: re) s
                      || Re.match_here re s)).
    rewrite andb_true_iff, orb_true_iff, IH. split.
    + intros [Hx [(a & b & -> & Ha & Hc & Hm)|Hm]].
      * exists (x :: a), b. simpl. rewrite Hx, Hc. now repeat split.
      * exists [x], s. simpl. rewrite Hx. now repeat split.
    + intros (a & b & H & Ha & Hc & Hm).
      destruct a as [|y a]; [contradiction|].
      simpl in H. injection H as -> ->.
      simpl in Hc. apply andb_true_iff in Hc. destruct Hc as [Hy Hc].
      split; [exact Hy|].
      destruct a as [|z a]; [now right|].
      left. exists (z :: a), b. now repeat split.
Qed.

Lemma match_lits (p : str) (re : list Re.atom) (s : str) :
  Re.match_here (Re.lits p ++ re) s = true <->
  exists s', s = p ++ s' /\ Re.match_here re s' = true.
Proof.
  revert s. induction p as [|c p IH]; intros s.
  - simpl. split; [intros H; now exists s | now intros (s' & -> & H)].
  - change (Re.lits (c :: p) ++ re) with (Re.Lit c :: (Re.lits p ++ re)).
    destruct s as [|x s]; cbn [Re.match_here].
    + split; [discriminate | now intros (s' & H & _)].
    + rewrite andb_true_iff, IH. unfold char_eqb. rewrite N.eqb_eq. split.
      * intros [-> (s' & -> & H)]. now exists s'.
      * intros (s' & [= -> ->] & H). split; [reflexivity | now exists s'].
Qed.

(** [re.match] accepts a line exactly when the line begins with the
    keyword [style], white space, an identifier of word characters, white
    space and [fill:]; what follows is free. *)
Theorem style_pattern_shape (line : str) :
  Re.match_here style_pattern line = true <-> style_shape line.
Proof.
  unfold style_pattern, style_shape.
  rewrite match_lits. split.
  - intros (s1 & -> & H).
    change ([Re.Plus re_space; Re.Plus re_word; Re.Plus re_space]
              ++ Re.lits (py "fill:"))
      with (Re.Plus re_space :: Re.Plus re_word :: Re.Plus re_space
              :: (Re.lits (py "fill:") ++ [])) in H.
    apply match_plus in H. destruct H as (ws1 & s2 & -> & Hn1 & Hw1 & H).
    apply match_plus in H. destruct H as (ident & s3 & -> & Hn2 & Hw2 & H).
    apply match_plus in H. destruct H as (ws2 & s4 & -> & Hn3 & Hw3 & H).
    apply match_lits in H. destruct H as (rest & -> & _).
    exists ws1, ident, ws2, rest. now repeat split.
  - intros (ws1 & ident & ws2 & rest & -> & Hn1 & Hw1 & Hn2 & Hw2 & Hn3 & Hw3).
    eexists. split; [reflexivity|].
    change ([Re.Plus re_space; Re.Plus re_word; Re.Plus re_space]
              ++ Re.lits (py "fill:"))
      with (Re.Plus re_space :: Re.Plus re_word :: Re.Plus re_space
              :: (Re.lits (py "fill:") ++ [])).
    apply match_plus. exists ws1, (ident ++ ws2 ++ py "fill:" ++ rest).
    repeat split; try assumption.
    apply match_plus. exists ident, (ws2 ++ py "fill:" ++ rest).
    repeat split; try assumption.
    apply match_plus. exists ws2, (py "fill:" ++ rest).
    split; [reflexivity|]. split; [assumption|]. split; [assumption|].
    apply match_lits. now exists rest.
Qed.

(** ** Syntax validator: style lines, brackets, valid diagrams *)

(** An invalid-style error is reported for a line exactly when the
    trimmed line starts with [style ] and the line as it stands does not
    have the shape [style <identifier> fill:...]; the error carries the
    trimmed line. *)
Theorem style_errors_reported (diagram_content e : str) :
  In e (fst (validate_mermaid_syntax diagram_content))
  /\ startswith e (py "Invalid style syntax: ") = true
  <-> exists line,
        In line (split_nl diagram_content)
        /\ startswith (strip line) (py "style ") = true
        /\ ~ style_shape line
        /\ e = py "Invalid style syntax: " ++ strip line.
Proof.
  split.
  - intros [Hin Hs]. apply error_origin_of in Hin.
    destruct Hin as [H|H|H|_ H|H|l Hl Hk Hm H];
      try (apply In_unclosed in H; destruct H as [_ H]);
      subst e;
      try (exfalso; revert Hs;
           repeat match goal with
                  | |- context [str_of_Z ?n] => generalize (str_of_Z n); intro
                  end;
           vm_compute; discriminate).
    exists l. repeat split; try assumption.
    rewrite <- style_pattern_shape, Hm. discriminate.
  - intros (line & Hl & Hk & Hn & ->). split; [|apply startswith_app].
    rewrite validate_errors, !in_app_iff. right; right; right.
    apply in_flat_map. exists line. split; [apply filter_In; now split|].
    unfold style_error.
    destruct (Re.match_here style_pattern line) eqn:Hm; [|now left].
    exfalso. apply Hn. now apply style_pattern_shape.
Qed.

Lemma count_permutation (c : char) (a b : str) :
  Permutation a b -> count c a = count c b.
Proof.
  induction 1; simpl; lia.
Qed.

Lemma unclosed_errors_unclosed (label : string) (n : Z) :
  startswith (py label) (py "Unclosed ") = true ->
  unclosed_errors (unclosed label n) = unclosed label n.
Proof.
  intros Hl. unfold unclosed. destruct (n =? 0); [reflexivity|].
  unfold unclosed_errors. cbn [filter].
  apply startswith_iff in Hl. destruct Hl as (r & ->).
  rewrite <- !app_assoc. now rewrite startswith_app.
Qed.

Lemma unclosed_errors_style (ls : list str) :
  unclosed_errors (flat_map style_error ls) = [].
Proof.
  unfold unclosed_errors.
  induction ls as [|l ls IH]; [reflexivity|].
  cbn [flat_map]. rewrite filter_app, IH, app_nil_r.
  unfold style_error. destruct (Re.match_here style_pattern l); [reflexivity|].
  generalize (strip l). intros x. reflexivity.
Qed.

(** The bracket errors of a validation are the errors of the three
    counts, in their order. *)
Lemma unclosed_errors_validate (diagram_content : str) :
  unclosed_errors (fst (validate_mermaid_syntax diagram_content))
  = unclosed "Unclosed brackets: "
      (count 91%N diagram_content - count 93%N diagram_content)
    ++ unclosed "Unclosed braces: "
         (count 123%N diagram_content - count 125%N diagram_content)
    ++ unclosed "Unclosed parentheses: "
         (count 40%N diagram_content - count 41%N diagram_content).
Proof.
  rewrite validate_errors. unfold unclosed_errors.
  rewrite !filter_app. fold unclosed_errors.
  rewrite !unclosed_errors_unclosed by reflexivity.
  rewrite unclosed_errors_style, app_nil_r.
  destruct (snd (validate_mermaid_syntax diagram_content)) as [t|].
  - destruct (_ && _); cbn; now rewrite !app_nil_r, <- ?app_assoc.
  - cbn. now rewrite !app_nil_r, <- ?app_assoc.
Qed.

(** The bracket check counts characters and does not look at their order:
    two contents with the same characters in any order get the same
    bracket errors. *)
Theorem bracket_errors_ignore_order (content1 content2 : str) :
  Permutation content1 content2 ->
  unclosed_errors (fst (validate_mermaid_syntax content1))
  = unclosed_errors (fst (validate_mermaid_syntax content2)).
Proof.
  intros Hp. rewrite !unclosed_errors_validate.
  now rewrite !(count_permutation _ _ _ Hp).
Qed.

Lemma unclosed_nil (label : string) (n : Z) : unclosed label n = [] <-> n = 0.
Proof.
  unfold unclosed. destruct (Z.eqb_spec n 0); split; try easy.
Qed.

Lemma style_errors_nil (ls : list str) :
  flat_map style_error ls = [] <->
  forall l, In l ls -> Re.match_here style_pattern l = true.
Proof.
  induction ls as [|l ls IH]; cbn [flat_map].
  - split; [intros _ ? [] | reflexivity].
  - split.
    + intros H. apply app_eq_nil in H. destruct H as [Hl Hls].
      intros l' [<-|Hin]; [|now apply IH].
      unfold style_error in Hl.
      destruct (Re.match_here style_pattern l); [reflexivity | discriminate].
    + intros H. unfold style_error at 1.
      rewrite (H l (or_introl eq_refl)). simpl.
      apply IH. intros l' Hin. apply H. now right.
Qed.

(** A diagram gets no error exactly when its three bracket counts are
    balanced, a type is detected in its first three lines, a graph has at
    least one arrow token, and every line whose trimmed text starts with
    [style ] has the shape [style <identifier> fill:...]. *)
Theorem no_errors_iff (diagram_content : str) :
  fst (validate_mermaid_syntax diagram_content) = [] <->
  (count 91%N diagram_content = count 93%N diagram_content
   /\ count 123%N diagram_content = count 125%N diagram_content
   /\ count 40%N diagram_content = count 41%N diagram_content)
  /\ (exists t,
        snd (validate_mermaid_syntax diagram_content) = Some t
        /\ (contains (py "graph") t = true ->
            exists pattern,
              In pattern arrow_patterns
              /\ contains pattern diagram_content = true))
  /\ (forall line,
        In line (split_nl diagram_content) ->
        startswith (strip line) (py "style ") = true ->
        style_shape line).
Proof.
  rewrite validate_errors.
  split.
  - intros H.
    apply app_eq_nil in H. destruct H as [Hb H].
    apply app_eq_nil in Hb. destruct Hb as [Hb1 Hb].
    apply app_eq_nil in Hb. destruct Hb as [Hb2 Hb3].
    apply app_eq_nil in H. destruct H as [Ht H].
    apply app_eq_nil in H. destruct H as [Ha Hs].
    apply unclosed_nil in Hb1, Hb2, Hb3.
    split; [repeat split; lia|]. split.
    + destruct (snd (validate_mermaid_syntax diagram_content)) as [t|];
        [|discriminate Ht].
      exists t. split; [reflexivity|]. intros Hg. rewrite Hg in Ha.
      destruct (existsb _ arrow_patterns) eqn:He; [|discriminate Ha].
      apply existsb_exists in He. destruct He as (p & Hin & Hc).
      now exists p.
    + intros line Hin Hk. apply style_pattern_shape.
      apply (proj1 (style_errors_nil _) Hs). apply filter_In. now split.
  - intros ((H1 & H2 & H3) & (t & Ht & Ha) & Hs).
    rewrite Ht.
    rewrite (proj2 (unclosed_nil _ _)) by lia.
    rewrite (proj2 (unclosed_nil _ _)) by lia.
    rewrite (proj2 (unclosed_nil _ _)) by lia.
    cbn [app].
    rewrite (proj2 (style_errors_nil _)).
    2:{ intros l Hl. apply filter_In in Hl. destruct Hl as [Hin Hk].
        apply style_pattern_shape. now apply Hs. }
    rewrite app_nil_r.
    destruct (contains (py "graph") t) eqn:Hg;
      [|now rewrite andb_false_r].
    destruct (Ha eq_refl) as (p & Hin & Hc).
    replace (existsb _ arrow_patterns) with true; [reflexivity|].
    symmetry. apply existsb_exists. now exists p.
Qed.

(** ** Render probe: what it does to the disk *)

(** The state after a probe, case by case. *)
Lemma probe_effect (pe : ProbeEnv) (diagram_content : str) (s : State) :
  let s' := snd (test_mermaid_rendering pe diagram_content s) in
  report_file s' = report_file s
  /\ match pe_tempfile pe, pe_write pe with
     | inl _, _ => tmp_files s' = tmp_files s /\ trace s' = trace s
     | inr name, Some _ =>
         tmp_files s' = name :: tmp_files s
         /\ trace s' = trace s ++ [IoTempCreate name]
     | inr name, None =>
         tmp_files s' = match unlink_refused pe with
                        | Some _ => name :: tmp_files s
                        | None => remove_str name (tmp_files s)
                        end
         /\ trace s' = trace s ++ IoTempCreate name :: IoSpawn name
                                  :: match input_fate_of pe with
                                     | Untouched => [IoUnlink name]
                                     | Removed | Held _ => []
                                     end
     end.
Proof.
  cbv zeta.
  destruct (pe_tempfile pe) as [e|name] eqn:Hn.
  - unfold test_mermaid_rendering, named_temporary_file,
      try_except, bind, lift_result, raise, ret. rewrite Hn.
    now repeat split.
  - destruct (pe_write pe) as [e|] eqn:Hw.
    + unfold test_mermaid_rendering, named_temporary_file,
        try_except, bind, lift_result, modify, raise, ret.
      rewrite Hn, Hw. now repeat split.
    + run_probe pe; rewrite Hn, Hw;
        repeat (cbn [fst snd tmp_files report_file trace log set_tmp];
                rewrite ?mem_str_head, ?mem_str_remove, ?remove_str_head);
        rewrite <- ?app_assoc; now repeat split.
Qed.

(** A probe whose temporary file is written without an exception and is
    not held by the renderer leaves the disk as it found it, however the
    renderer ends: it makes its file under a fresh name, starts the
    renderer once on it, and removes the file unless the renderer has
    removed it. *)
Theorem probe_restores_disk
    (pe : ProbeEnv) (diagram_content name : str) (s : State) :
  pe_tempfile pe = inr name ->
  pe_write pe = None ->
  unlink_refused pe = None ->
  mem_str name (tmp_files s) = false ->
  let s' := snd (test_mermaid_rendering pe diagram_content s) in
  tmp_files s' = tmp_files s
  /\ report_file s' = report_file s
  /\ trace s' = trace s ++ IoTempCreate name :: IoSpawn name
                           :: match input_fate_of pe with
                              | Removed => []
                              | Untouched | Held _ => [IoUnlink name]
                              end.
Proof.
  intros Hn Hw Hu Hfresh.
  destruct (probe_effect pe diagram_content s) as [Hr He].
  rewrite Hn, Hw, Hu in He. destruct He as [Ht Htr].
  cbv zeta. rewrite Ht, (remove_str_absent _ _ Hfresh).
  split; [reflexivity|]. split; [exact Hr|].
  rewrite Htr. unfold unlink_refused in Hu.
  destruct (input_fate_of pe); [reflexivity | reflexivity | discriminate Hu].
Qed.

(** When the renderer holds its input file, [os.unlink] raises in the
    [finally] clause: the probe returns the error outcome with the text
    of that exception, whatever the renderer returned, and the temporary
    file stays on disk. *)
Theorem held_file_stays_on_disk
    (pe : ProbeEnv) (diagram_content name : str) (s : State)
    (p : Process) (e : exn) :
  pe_tempfile pe = inr name ->
  pe_write pe = None ->
  pe_run pe = inr p ->
  input_fate p = Held e ->
  test_mermaid_rendering pe diagram_content s
  = (inr (Some false, probe_error ++ exn_str e),
     {| tmp_files := name :: tmp_files s; report_file := report_file s;
        trace := trace s ++ [IoTempCreate name; IoSpawn name] |}).
Proof.
  intros Hn Hw Hp Hf.
  unfold test_mermaid_rendering, named_temporary_file, subprocess_run,
    os_unlink, unlink_refused, input_fate_of, try_except, try_finally, bind,
    lift_result, modify, gets, raise, ret.
  rewrite Hn, Hw, Hp, Hf.
  destruct (10 <? elapsed p); [|destruct (returncode (completed p) =? 0)];
    repeat (cbn [fst snd tmp_files report_file trace log set_tmp];
            rewrite ?mem_str_head);
    unfold log, set_tmp; cbn [tmp_files report_file trace];
    rewrite <- ?app_assoc; reflexivity.
Qed.

(** A probe never touches the report, and its operations are: none; or
    the making of its temporary file only; or the making of the file and
    one start of the renderer on it, when the removal raises; or the
    making, one start of the renderer and the removal.  The renderer is
    never started without the file and never twice. *)
Theorem probe_operations (pe : ProbeEnv) (diagram_content : str) (s : State) :
  let s' := snd (test_mermaid_rendering pe diagram_content s) in
  report_file s' = report_file s
  /\ exists ops,
       trace s' = trace s ++ ops
       /\ (ops = []
           \/ (exists n, ops = [IoTempCreate n])
           \/ (exists n, ops = [IoTempCreate n; IoSpawn n])
           \/ (exists n, ops = [IoTempCreate n; IoSpawn n; IoUnlink n])).
Proof.
  destruct (probe_effect pe diagram_content s) as [Hr He].
  cbv zeta. split; [exact Hr|].
  destruct (pe_tempfile pe) as [e|name].
  - exists []. rewrite app_nil_r. split; [apply He | now left].
  - destruct (pe_write pe) as [e|].
    + eexists. split; [apply He|]. right; left. now exists name.
    + eexists. split; [apply He|].
      destruct (input_fate_of pe).
      * right; right; right. now exists name.
      * right; right; left. now exists name.
      * right; right; left. now exists name.
Qed.

(** ** Orchestrator: what a run does to the disk *)

Lemma extract_effect (f : MdFile) (s : State) :
  extract_mermaid_diagrams f s
  = (inr (diagrams_in [f]), log (IoRead (md_str f)) s).
Proof.
  unfold extract_mermaid_diagrams, open_read, try_except, bind, lift_result,
    modify, raise, ret, diagrams_in.
  simpl. rewrite app_nil_r.
  destruct (md_read f) as [e|text]; reflexivity.
Qed.

(** Extraction reads every file of the listing once, in its order, also
    after a file that cannot be read, and changes nothing on disk. *)
Lemma extract_all_effect (files : list MdFile) :
  forall acc s,
    exists s',
      extract_all files acc s = (inr (acc ++ diagrams_in files), s')
      /\ tmp_files s' = tmp_files s
      /\ report_file s' = report_file s
      /\ trace s' = trace s ++ reads_of files.
Proof.
  induction files as [|f files IH]; intros acc s.
  - exists s. simpl. unfold ret, diagrams_in. simpl.
    now rewrite !app_nil_r.
  - cbn [extract_all]. unfold bind. rewrite extract_effect.
    destruct (IH (acc ++ diagrams_in [f]) (log (IoRead (md_str f)) s))
      as (s' & -> & Ht & Hr & Htr).
    exists s'. rewrite (diagrams_in_cons f files), app_assoc.
    split; [reflexivity|]. split; [exact Ht|]. split; [exact Hr|].
    rewrite Htr. cbn [trace log reads_of List.map].
    now rewrite <- app_assoc.
Qed.

(** The validation loop leaves the report alone, does probe operations
    only, and leaves no further temporary file when no write raises and
    no removal is refused. *)
Lemma validate_all_effect (env : Env) (diagrams : list Diagram) :
  forall k total results s,
    exists s',
      validate_all env k diagrams total results s
      = (inr (total + total_error_count (results_for env k diagrams),
              results ++ results_for env k diagrams), s')
      /\ report_file s' = report_file s
      /\ (exists ops, trace s' = trace s ++ ops /\ forallb probe_io ops = true)
      /\ ((forall j, pe_write (probe_env env j) = None
                     /\ unlink_refused (probe_env env j) = None) ->
          incl (tmp_files s') (tmp_files s)).
Proof.
  induction diagrams as [|d ds IH]; intros k total results s.
  - exists s. simpl. unfold ret. rewrite Z.add_0_r, app_nil_r.
    split; [reflexivity|]. split; [reflexivity|]. split.
    + exists []. now rewrite app_nil_r.
    + intros _. apply incl_refl.
  - destruct (validate_all_returns env (d :: ds) k total results s)
      as (s' & Hv).
    exists s'. split; [exact Hv|].
    cbn [validate_all] in Hv.
    destruct (validate_mermaid_syntax (content d)) as [errors t].
    unfold bind in Hv.
    pose proof (probe_returns (probe_env env k) (content d) s) as Hp.
    pose proof (probe_effect (probe_env env k) (content d) s) as He.
    destruct (test_mermaid_rendering (probe_env env k) (content d) s)
      as [r s1].
    cbn [fst snd] in Hp, He. subst r.
    destruct (probe_outcome (probe_env env k)) as [render_result message].
    match type of Hv with
    | validate_all env (S k) ds ?t ?r s1 = _ =>
        destruct (IH (S k) t r s1) as (s2 & Hv2 & Hr2 & (ops2 & Ht2 & Hf2) & Hi2)
    end.
    rewrite Hv2 in Hv. injection Hv as _ _ <-.
    destruct He as [Hr1 He].
    split; [congruence|]. split.
    + assert (Hops : exists ops1,
                 trace s1 = trace s ++ ops1 /\ forallb probe_io ops1 = true).
      { destruct (pe_tempfile (probe_env env k)) as [e|name];
          [|destruct (pe_write (probe_env env k))];
          destruct He as [_ Htr]; rewrite Htr.
        - exists []. now rewrite app_nil_r.
        - now eexists.
        - eexists. split; [reflexivity|].
          now destruct (input_fate_of (probe_env env k)). }
      destruct Hops as (ops1 & Ht1 & Hf1).
      exists (ops1 ++ ops2). rewrite Ht2, Ht1, <- app_assoc.
      split; [reflexivity|]. now rewrite forallb_app, Hf1, Hf2.
    + intros Hw. specialize (Hi2 Hw). destruct (Hw k) as [Hwk Huk].
      rewrite Hwk, Huk in He.
      intros x Hx. apply Hi2 in Hx.
      destruct (pe_tempfile (probe_env env k)) as [e|name];
        destruct He as [Htmp _]; rewrite Htmp in Hx; [exact Hx|].
      exact (remove_str_incl _ _ _ Hx).
Qed.

(** The steps of a run that gets past discovery. *)
Lemma main_steps (env : Env) (s : State) :
  docs_exists env = true ->
  docs_glob env <> [] ->
  let diagrams := diagrams_in (docs_glob env) in
  let results := results_for env O diagrams in
  let s2 := state_before_report env s in
  main env s
  = match report_open env with
    | Some e => (inl e, s2)
    | None => (inr (Some (total_error_count results =? 0)),
               log IoWriteReport (set_report results s2))
    end
  /\ report_file s2 = report_file s
  /\ (exists ops,
        trace s2 = trace s ++ reads_of (docs_glob env) ++ ops
        /\ forallb probe_io ops = true)
  /\ ((forall j, pe_write (probe_env env j) = None
                 /\ unlink_refused (probe_env env j) = None) ->
      incl (tmp_files s2) (tmp_files s)).
Proof.
  intros Hd Hg. cbv zeta. unfold main, state_before_report. rewrite Hd.
  cbn [negb].
  destruct (docs_glob env) as [|f files] eqn:Hfiles; [contradiction|].
  unfold bind.
  destruct (extract_all_effect (f :: files) [] s)
    as (s1 & -> & Ht1 & Hr1 & Htr1).
  cbn [app snd].
  destruct (validate_all_effect env (diagrams_in (f :: files)) O 0 [] s1)
    as (s2 & -> & Hr2 & (ops & Htr2 & Hf) & Hi).
  cbn [app snd]. split.
  - unfold save_results. destruct (report_open env); reflexivity.
  - split; [congruence|]. split.
    + exists ops. rewrite Htr2, Htr1, <- app_assoc. now split.
    + intros Hw. rewrite <- Ht1. now apply Hi.
Qed.

Lemma run_without_discovery (env : Env) (s : State) :
  docs_exists env = false \/ docs_glob env = [] -> run env s = (1, s).
Proof.
  intros [Hd|Hg]; unfold run, main.
  - now rewrite Hd.
  - rewrite Hg. now destruct (docs_exists env).
Qed.

Lemma run_steps (env : Env) (s : State) :
  docs_exists env = true ->
  docs_glob env <> [] ->
  let results := results_for env O (diagrams_in (docs_glob env)) in
  let s2 := state_before_report env s in
  run env s
  = match report_open env with
    | Some _ => (1, s2)
    | None => (if total_error_count results =? 0 then 0 else 1,
               log IoWriteReport (set_report results s2))
    end
  /\ report_file s2 = report_file s
  /\ (exists ops,
        trace s2 = trace s ++ reads_of (docs_glob env) ++ ops
        /\ forallb probe_io ops = true)
  /\ ((forall j, pe_write (probe_env env j) = None
                 /\ unlink_refused (probe_env env j) = None) ->
      incl (tmp_files s2) (tmp_files s)).
Proof.
  intros Hd Hg. cbv zeta.
  destruct (main_steps env s Hd Hg) as (Hm & H).
  split; [|exact H].
  unfold run. rewrite Hm.
  destruct (report_open env); [reflexivity|].
  simpl. now destruct (total_error_count _ =? 0).
Qed.

(** The probes do not depend on the answer to the opening of the report
    file. *)
Lemma validate_all_with_report_open
    (env : Env) (answer : option exn) (diagrams : list Diagram) :
  forall k total results s,
    validate_all (with_report_open env answer) k diagrams total results s
    = validate_all env k diagrams total results s.
Proof.
  induction diagrams as [|d ds IH]; intros k total results s; [reflexivity|].
  cbn [validate_all].
  destruct (validate_mermaid_syntax (content d)) as [errors t].
  unfold bind. cbn [probe_env with_report_open].
  destruct (test_mermaid_rendering (probe_env env k) (content d) s)
    as [[e|[render_result message]] s1]; [reflexivity|].
  apply IH.
Qed.

Lemma state_before_report_with_report_open
    (env : Env) (answer : option exn) (s : State) :
  state_before_report (with_report_open env answer) s
  = state_before_report env s.
Proof.
  unfold state_before_report. cbn [docs_glob with_report_open].
  now rewrite validate_all_with_report_open.
Qed.

Lemma results_for_fields (env : Env) (diagrams : list Diagram) :
  forall k,
    List.map r_id (results_for env k diagrams) = List.map id diagrams
    /\ List.map r_file (results_for env k diagrams) = List.map file diagrams
    /\ List.map (fun r => (syntax_errors r, r_type r))
                (results_for env k diagrams)
       = List.map (fun d => validate_mermaid_syntax (content d)) diagrams.
Proof.
  induction diagrams as [|d ds IH]; intros k; [now repeat split|].
  destruct (IH (S k)) as (H1 & H2 & H3).
  cbn [results_for List.map r_id r_file syntax_errors r_type].
  rewrite H1, H2, H3. repeat split.
Qed.

(** The report of a complete run has one record for each diagram of each
    readable file, in the order of the listing and of the blocks in each
    file; a record has the identifier and the path of its diagram and
    the errors and the type the validator gives for its content. *)
Theorem report_lists_diagrams_in_order (env : Env) (s : State) :
  completes env ->
  exists results,
    report_file (snd (run env s)) = Some results
    /\ List.map r_id results = List.map id (diagrams_in (docs_glob env))
    /\ List.map r_file results = List.map file (diagrams_in (docs_glob env))
    /\ List.map (fun r => (syntax_errors r, r_type r)) results
       = List.map (fun d => validate_mermaid_syntax (content d))
                  (diagrams_in (docs_glob env)).
Proof.
  intros Hc. destruct (run_completes env s Hc) as (s' & -> & Hr).
  eexists. split; [exact Hr|]. apply results_for_fields.
Qed.

Lemma total_error_count_nonneg (results : list ValidationResult) :
  0 <= total_error_count results.
Proof.
  induction results as [|r rs IH]; simpl; [lia|].
  unfold result_errors. destruct (render_test r) as [[|]|]; lia.
Qed.

Lemma total_zero_iff_clean (results : list ValidationResult) :
  total_error_count results = 0 <-> forall r, In r results -> clean r.
Proof.
  induction results as [|r rs IH]; simpl.
  - split; [intros _ ? [] | reflexivity].
  - pose proof (total_error_count_nonneg rs) as Hn.
    assert (Hr : result_errors r = 0 <-> clean r).
    { unfold result_errors, clean.
      destruct (syntax_errors r) as [|e es];
        destruct (render_test r) as [[|]|]; simpl length; split;
        try (intros; lia); try (intros _; split; congruence);
        try (intros [H1 H2]; congruence). }
    assert (0 <= result_errors r).
    { unfold result_errors. destruct (render_test r) as [[|]|]; lia. }
    split.
    + intros H0 r' [<-|Hin]; [apply Hr; lia | apply IH; [lia | exact Hin]].
    + intros Hall.
      assert (result_errors r = 0) by (apply Hr, Hall; now left).
      assert (total_error_count rs = 0)
        by (apply IH; intros r' Hin; apply Hall; now right).
      lia.
Qed.

(** A complete run exits with status 0 exactly when every record of its
    report has no syntax error and no failed render; a record with an
    indeterminate render does not stand in the way. *)
Theorem exit_zero_iff_all_clean (env : Env) (s : State) :
  completes env ->
  fst (run env s) = 0
  <-> forall r, In r (results_on_disk (snd (run env s))) -> clean r.
Proof.
  intros Hc. destruct (run_completes env s Hc) as (s' & -> & Hr).
  cbn [fst snd]. unfold results_on_disk. rewrite Hr.
  rewrite <- total_zero_iff_clean.
  destruct (Z.eqb_spec
              (total_error_count
                 (results_for env O (diagrams_in (docs_glob env)))) 0)
    as [->|Hne]; split; try easy.
Qed.

(** When the report file cannot be opened, the run has done everything
    a run does before it writes the report: it leaves the temporary files
    of the same run with a report that opens, and has done the same
    operations but the writing; it ends with status 1, and the report that
    was on disk before is still there. *)
Theorem report_open_failure_keeps_old_report
    (env : Env) (s : State) (e : exn) :
  docs_exists env = true ->
  docs_glob env <> [] ->
  report_open env = Some e ->
  let s' := snd (run env s) in
  let written := snd (run (with_report_open env None) s) in
  fst (run env s) = 1
  /\ report_file s' = report_file s
  /\ tmp_files s' = tmp_files written
  /\ trace s' ++ [IoWriteReport] = trace written.
Proof.
  intros Hd Hg Ho. cbv zeta.
  destruct (run_steps env s Hd Hg) as (Hrun & Hr & _ & _).
  destruct (run_steps (with_report_open env None) s Hd Hg)
    as (Hrun' & _ & _ & _).
  rewrite Ho in Hrun. cbn [report_open with_report_open] in Hrun'.
  rewrite state_before_report_with_report_open in Hrun'.
  rewrite Hrun, Hrun'. now repeat split.
Qed.

Lemma diagrams_in_app (l1 l2 : list MdFile) :
  diagrams_in (l1 ++ l2) = diagrams_in l1 ++ diagrams_in l2.
Proof. unfold diagrams_in. apply flat_map_app. Qed.

(** A file that cannot be read adds no diagram and does not stop the
    run.  When other files are listed, report and exit status are those
    of the same run without that file; when it is the only file, the run
    still completes, with an empty report and status 0, where the run
    without it fails at discovery with status 1 and writes nothing. *)
Theorem unreadable_file_changes_nothing
    (env : Env) (s1 s2 : State)
    (before after : list MdFile) (bad : MdFile) (e : exn) :
  completes env ->
  docs_glob env = before ++ bad :: after ->
  md_read bad = inl e ->
  let without := with_glob env (before ++ after) in
  (before ++ after <> [] ->
   report_file (snd (run env s1)) = report_file (snd (run without s2))
   /\ fst (run env s1) = fst (run without s2))
  /\ (before ++ after = [] ->
      report_file (snd (run env s1)) = Some []
      /\ fst (run env s1) = 0
      /\ run without s2 = (1, s2)).
Proof.
  intros Hc Hg Hbad. cbv zeta.
  assert (Hd : diagrams_in (before ++ bad :: after)
               = diagrams_in (before ++ after)).
  { rewrite !diagrams_in_app, (diagrams_in_cons bad after).
    unfold diagrams_in at 2. simpl. now rewrite Hbad. }
  destruct (run_completes env s1 Hc) as (s1' & Hrun & Hr1).
  rewrite Hrun. cbn [fst snd]. rewrite Hr1, Hg, Hd.
  split.
  - intros Hne.
    assert (Hc2 : completes (with_glob env (before ++ after))).
    { destruct Hc as (H1 & _ & H3). now repeat split. }
    destruct (run_completes _ s2 Hc2) as (s2' & -> & Hr2).
    cbn [fst snd]. rewrite Hr2. cbn [docs_glob with_glob].
    assert (Hres : forall ds k,
               results_for (with_glob env (before ++ after)) k ds
               = results_for env k ds).
    { induction ds as [|d ds IH]; intros k; simpl; [reflexivity|].
      now rewrite IH. }
    rewrite Hres. now split.
  - intros He. rewrite He. cbn [diagrams_in flat_map results_for].
    split; [reflexivity|]. split; [reflexivity|].
    apply run_without_discovery. right. reflexivity.
Qed.

(** A run in which no write to a temporary file raises and no removal
    of a temporary file is refused leaves no temporary file behind: every
    temporary file on disk after the run was there before it, however
    the discovery, the probes and the writing of the report end. *)
Theorem run_leaves_no_temp_file (env : Env) (s : State) :
  (forall k, pe_write (probe_env env k) = None
             /\ unlink_refused (probe_env env k) = None) ->
  incl (tmp_files (snd (run env s))) (tmp_files s).
Proof.
  intros Hw.
  destruct (docs_exists env) eqn:Hd.
  2:{ rewrite (run_without_discovery env s (or_introl Hd)).
      apply incl_refl. }
  destruct (docs_glob env) as [|f files] eqn:Hg.
  1:{ rewrite (run_without_discovery env s (or_intror Hg)).
      apply incl_refl. }
  destruct (run_steps env s Hd) as (Hrun & _ & _ & Hi).
  { rewrite Hg. discriminate. }
  rewrite Hrun. specialize (Hi Hw).
  destruct (report_open env); exact Hi.
Qed.

(** A complete run reads every file of the listing exactly once, in the
    order of the listing and before any probe; then come the operations
    of the probes, and the report is written once, at the very end. *)
Theorem files_read_once_then_probes_then_report (env : Env) (s : State) :
  completes env ->
  exists ops,
    trace (snd (run env s))
    = trace s ++ reads_of (docs_glob env) ++ ops ++ [IoWriteReport]
    /\ forallb probe_io ops = true.
Proof.
  intros (Hd & Hg & Ho).
  destruct (run_steps env s Hd Hg) as (Hrun & _ & (ops & Ht & Hf) & _).
  rewrite Ho in Hrun. rewrite Hrun. cbn [snd trace log set_report].
  exists ops. rewrite Ht, <- !app_assoc. now split.
Qed.



(** ** The project inventory *)

Lemma scan_spec (fs : UiAnalyzer.ProjectFs) (items : list (str * str)) :
  forall present missing,
    UiAnalyzer.scan fs items present missing
    = (present
         ++ List.map (fun it => (fst it, snd it, UiAnalyzer.st_size fs (fst it)))
              (filter (fun it => UiAnalyzer.path_exists fs (fst it)) items),
       missing
         ++ filter (fun it => negb (UiAnalyzer.path_exists fs (fst it))) items).
Proof.
  induction items as [|[path descr] items IH]; intros present missing.
  - simpl. now rewrite !app_nil_r.
  - cbn [UiAnalyzer.scan filter fst].
    destruct (UiAnalyzer.path_exists fs path); cbn [negb].
    + rewrite IH. cbn [List.map fst snd]. now rewrite <- app_assoc.
    + rewrite IH. now rewrite <- app_assoc.
Qed.

Lemma scan_split (fs : UiAnalyzer.ProjectFs) (items : list (str * str)) :
  let present := fst (UiAnalyzer.scan fs items [] []) in
  let missing := snd (UiAnalyzer.scan fs items [] []) in
  (forall path descr size,
     In (path, descr, size) present
     <-> In (path, descr) items
         /\ UiAnalyzer.path_exists fs path = true
         /\ size = UiAnalyzer.st_size fs path)
  /\ (forall path descr,
        In (path, descr) missing
        <-> In (path, descr) items
            /\ UiAnalyzer.path_exists fs path = false)
  /\ List.map (fun p => fst (fst p)) present
     = filter (UiAnalyzer.path_exists fs) (List.map fst items)
  /\ List.map fst missing
     = filter (fun path => negb (UiAnalyzer.path_exists fs path))
              (List.map fst items)
  /\ (length present + length missing = length items)%nat.
Proof.
  cbv zeta. rewrite scan_spec. cbn [fst snd app].
  split; [|split; [|split; [|split]]].
  - intros path descr size. rewrite in_map_iff. split.
    + intros ([p d] & [= -> -> <-] & Hin).
      apply filter_In in Hin. now destruct Hin.
    + intros (Hin & He & ->). exists (path, descr).
      split; [reflexivity|]. apply filter_In. now split.
  - intros path descr. rewrite filter_In. cbn [fst].
    rewrite negb_true_iff. reflexivity.
  - rewrite map_map. cbn [fst].
    induction items as [|[p d] items IH]; simpl; [reflexivity|].
    destruct (UiAnalyzer.path_exists fs p); simpl; now rewrite IH.
  - induction items as [|[p d] items IH]; simpl; [reflexivity|].
    destruct (UiAnalyzer.path_exists fs p); simpl; now rewrite IH.
  - induction items as [|[p d] items IH]; simpl; [reflexivity|].
    destruct (UiAnalyzer.path_exists fs p); simpl; lia.
Qed.

(** The inventory splits the seven key files in two: a file is in the
    list of present files, with its description and the size the file
    system reports, exactly when it exists, and in the list of missing
    files, with its description, exactly when it does not; both lists
    keep the order of the table, and together they have seven entries. *)
Theorem key_files_split (fs : UiAnalyzer.ProjectFs) :
  let present := fst (UiAnalyzer.analyze_project_structure fs) in
  let missing := snd (UiAnalyzer.analyze_project_structure fs) in
  (forall path descr size,
     In (path, descr, size) present
     <-> In (path, descr) UiAnalyzer.key_files
         /\ UiAnalyzer.path_exists fs path = true
         /\ size = UiAnalyzer.st_size fs path)
  /\ (forall path descr,
        In (path, descr) missing
        <-> In (path, descr) UiAnalyzer.key_files
            /\ UiAnalyzer.path_exists fs path = false)
  /\ List.map (fun p => fst (fst p)) present
     = filter (UiAnalyzer.path_exists fs)
              (List.map fst UiAnalyzer.key_files)
  /\ List.map fst missing
     = filter (fun path => negb (UiAnalyzer.path_exists fs path))
              (List.map fst UiAnalyzer.key_files)
  /\ (length present + length missing = 7)%nat.
Proof.
  exact (scan_split fs UiAnalyzer.key_files).
Qed.

End Validator.

(** ** Concrete runs *)

(** The end-to-end scenarios A, B and C of the specification. *)
Example scenario_directed_graph :
  validate_mermaid_syntax ascii_only (join_nl [py "graph TD"; py "A-->B"])
  = ([], Some (py "graph TD")).
Proof. vm_compute. reflexivity. Qed.

Example scenario_missing_bracket :
  In (py "Unclosed brackets: 1")
     (fst (validate_mermaid_syntax ascii_only
             (join_nl [py "graph TD"; py "A[Start"; py "B(End)"]))).
Proof. vm_compute. left; reflexivity. Qed.

Example scenario_wrong_style :
  validate_mermaid_syntax ascii_only
    (join_nl [py "flowchart"; py "style X color:red"])
  = ([py "Invalid style syntax: style X color:red"], Some (py "flowchart")).
Proof. vm_compute. reflexivity. Qed.

(** C1 as the specification states it fails. With no documentation root the run
    ends with status 1 although no result carries an error, and so does a
    run whose report file cannot be opened. *)
Lemma exit_status_without_results :
  ~ exit_reflects_errors ascii_only env_no_docs empty_disk
  /\ ~ exit_reflects_errors ascii_only env_read_only empty_disk.
Proof.
  split; intros [_ H]; specialize (H eq_refl); discriminate H.
Qed.

Lemma exit_status_reflects_total_errors_witness :
  completes (env_rendering "/tmp/tmp0.mmd")
  /\ exit_reflects_errors ascii_only (env_rendering "/tmp/tmp0.mmd") empty_disk.
Proof.
  assert (H : completes (env_rendering "/tmp/tmp0.mmd")).
  { repeat split; [discriminate].  }
  split; [exact H|].
  exact (proj2 (proj2 (exit_status_reflects_total_errors
                         ascii_only (env_rendering "/tmp/tmp0.mmd")
                         empty_disk H))).
Defined.

(** C2 as the specification states it fails. The header is on the second non-empty
    line of the content, after two blank lines, and is not detected. *)
Lemma header_after_blank_lines_undetected :
  In (py "graph TD") (firstn 3 (nonempty_lines (split_nl header_after_blanks)))
  /\ has_header (py "graph TD")
  /\ validate_mermaid_syntax ascii_only header_after_blanks
     = ([py "No valid diagram type found"], None).
Proof.
  split; [|split].
  - vm_compute. right; left; reflexivity.
  - exists (py "graph TD"). split; [now left | reflexivity].
  - vm_compute. reflexivity.
Qed.

(** C3, the code at the failing input. Of two blocks with the same text
    the second has its fence on line 6 of the file and its text from line
    7 on, and both diagrams get line 2: [content.find(match)] finds the
    first occurrence of the text. *)
Lemma line_number_of_repeated_block :
  List.map snd (Re.finditer twice_the_same_block)
  = [join_nl [py "graph TD"; py "A-->B"]; join_nl [py "graph TD"; py "A-->B"]]
  /\ List.map (fun m => line_of_offset twice_the_same_block
                          (Nat.sub (fst m) (length Re.fence_open)))
              (Re.finditer twice_the_same_block)
     = [1; 6]
  /\ List.map (fun m => line_of_offset twice_the_same_block (fst m))
              (Re.finditer twice_the_same_block)
     = [2; 7]
  /\ List.map line_number
              (diagrams_of (md_file "a.md" twice_the_same_block)
                           twice_the_same_block)
     = [2; 2].
Proof. vm_compute. repeat split. Qed.

(** C4 as the specification states it fails. The spaces before the first line of
    the block and after its last line are not kept. *)
Lemma indented_block_loses_indentation :
  Re.findall indented_block
  = [join_nl [py "  graph TD"; py "  A-->B  "]]
  /\ List.map content
              (diagrams_of (md_file "a.md" indented_block) indented_block)
     = [join_nl [py "graph TD"; py "  A-->B"]].
Proof. vm_compute. split; reflexivity. Qed.

Lemma discovery_failure_ends_run_witness :
  (docs_exists env_no_markdown = false \/ docs_glob env_no_markdown = [])
  /\ run ascii_only env_no_markdown empty_disk = (1, empty_disk).
Proof.
  split; [right; reflexivity|].
  apply (discovery_failure_ends_run ascii_only env_no_markdown empty_disk).
  right; reflexivity.
Defined.

(** C8, the code at the failing input. When [f.write] raises, the probe
    returns its error outcome and the temporary file is still on disk:
    the [finally] clause covers the renderer call only. *)
Lemma temp_file_left_when_write_raises :
  test_mermaid_rendering (probe_write_raises "/tmp/tmp0.mmd")
                         arrow_in_label empty_disk
  = (inr (Some false,
          py "Rendering test error: 'charmap' codec can't encode character"),
     {| tmp_files := [py "/tmp/tmp0.mmd"]; report_file := None;
        trace := [IoTempCreate (py "/tmp/tmp0.mmd")] |}).
Proof. vm_compute. reflexivity. Qed.


Lemma indented_style_line_reported_witness :
  Re.match_here (style_pattern ascii_only) (py "style X fill:#fff") = true
  /\ In (py "Invalid style syntax: style X fill:#fff")
        (fst (validate_mermaid_syntax ascii_only indented_style)).
Proof.
  split; [reflexivity|].
  apply (indented_style_line_reported ascii_only indented_style
           (py "  style X fill:#fff") 32%N (py " style X fill:#fff")).
  - right; left; reflexivity.
  - reflexivity.
  - reflexivity.
  - reflexivity.
Defined.



(** ** Concrete runs of the further properties *)

Lemma diagram_comes_from_fenced_block_witness :
  In (mk_diagram (md_file "a.md" indented_block) indented_block O indented_text)
     (diagrams_of (md_file "a.md" indented_block) indented_block)
  /\ exists offset group,
       fenced_at indented_block offset group
       /\ contains Re.fence_close group = false
       /\ content (mk_diagram (md_file "a.md" indented_block) indented_block
                              O indented_text)
          = strip group
       /\ file (mk_diagram (md_file "a.md" indented_block) indented_block
                           O indented_text)
          = md_str (md_file "a.md" indented_block).
Proof.
  assert (H : In (mk_diagram (md_file "a.md" indented_block) indented_block
                             O indented_text)
                 (diagrams_of (md_file "a.md" indented_block) indented_block))
    by (left; reflexivity).
  split; [exact H|].
  exact (diagram_comes_from_fenced_block _ _ _ H).
Defined.

Lemma line_number_is_first_occurrence_witness :
  nth_error (Re.finditer twice_the_same_block) 1
  = Some (second_offset, repeated_text)
  /\ exists d j,
       nth_error (diagrams_of (md_file "a.md" twice_the_same_block)
                              twice_the_same_block) 1 = Some d
       /\ find_sub repeated_text twice_the_same_block = Some j
       /\ (j <= second_offset)%nat
       /\ line_number d = line_of_offset twice_the_same_block j
       /\ 1 <= line_number d
          <= line_of_offset twice_the_same_block second_offset.
Proof.
  assert (H : nth_error (Re.finditer twice_the_same_block) 1
              = Some (second_offset, repeated_text)) by reflexivity.
  split; [exact H|].
  exact (line_number_is_first_occurrence
           (md_file "a.md" twice_the_same_block) _ _ _ _ H).
Defined.

Lemma bracket_errors_ignore_order_witness :
  Permutation (py "[a](b") (rev (py "[a](b"))
  /\ unclosed_errors (fst (validate_mermaid_syntax ascii_only (py "[a](b")))
     = unclosed_errors
         (fst (validate_mermaid_syntax ascii_only (rev (py "[a](b")))).
Proof.
  split; [apply Permutation_rev|].
  apply (bracket_errors_ignore_order ascii_only).
  apply Permutation_rev.
Defined.

Lemma probe_restores_disk_witness :
  mem_str (py "/tmp/tmp0.mmd") (tmp_files stale_disk) = false
  /\ tmp_files (snd (test_mermaid_rendering (probe_renders "/tmp/tmp0.mmd")
                                            repeated_text stale_disk))
     = tmp_files stale_disk.
Proof.
  split; [reflexivity|].
  exact (proj1 (probe_restores_disk (probe_renders "/tmp/tmp0.mmd")
                  repeated_text (py "/tmp/tmp0.mmd") stale_disk
                  eq_refl eq_refl eq_refl eq_refl)).
Defined.

Lemma held_file_stays_on_disk_witness :
  input_fate_of (probe_holds_input "/tmp/tmp0.mmd")
  = Held (OtherException
            (py "[WinError 32] The process cannot access the file"))
  /\ test_mermaid_rendering (probe_holds_input "/tmp/tmp0.mmd")
                            repeated_text empty_disk
     = (inr (Some false,
             py "Rendering test error: [WinError 32] The process cannot access the file"),
        {| tmp_files := [py "/tmp/tmp0.mmd"]; report_file := None;
           trace := [IoTempCreate (py "/tmp/tmp0.mmd");
                     IoSpawn (py "/tmp/tmp0.mmd")] |}).
Proof.
  split; [reflexivity|].
  exact (held_file_stays_on_disk (probe_holds_input "/tmp/tmp0.mmd")
           repeated_text (py "/tmp/tmp0.mmd") empty_disk _ _
           eq_refl eq_refl eq_refl eq_refl).
Defined.

Lemma completes_env_rendering (name : string) : completes (env_rendering name).
Proof. repeat split; discriminate. Defined.

Lemma completes_env_of (f : MdFile) (files : list MdFile) (probe : ProbeEnv) :
  completes (env_of (f :: files) probe).
Proof. repeat split; discriminate. Defined.

Lemma report_lists_diagrams_in_order_witness :
  completes (env_rendering "/tmp/tmp0.mmd")
  /\ exists results,
       report_file (snd (run ascii_only (env_rendering "/tmp/tmp0.mmd")
                             empty_disk))
       = Some results
       /\ List.map r_id results
          = List.map id (diagrams_in (docs_glob (env_rendering "/tmp/tmp0.mmd")))
       /\ List.map r_file results
          = List.map file
              (diagrams_in (docs_glob (env_rendering "/tmp/tmp0.mmd")))
       /\ List.map (fun r => (syntax_errors r, r_type r)) results
          = List.map (fun d => validate_mermaid_syntax ascii_only (content d))
              (diagrams_in (docs_glob (env_rendering "/tmp/tmp0.mmd"))).
Proof.
  split; [apply completes_env_rendering|].
  exact (report_lists_diagrams_in_order ascii_only _ empty_disk
           (completes_env_rendering "/tmp/tmp0.mmd")).
Defined.

Lemma exit_zero_iff_all_clean_witness :
  completes (env_rendering "/tmp/tmp0.mmd")
  /\ (fst (run ascii_only (env_rendering "/tmp/tmp0.mmd") empty_disk) = 0
      <-> forall r,
            In r (results_on_disk
                    (snd (run ascii_only (env_rendering "/tmp/tmp0.mmd")
                              empty_disk))) ->
            clean r).
Proof.
  split; [apply completes_env_rendering|].
  exact (exit_zero_iff_all_clean ascii_only _ empty_disk
           (completes_env_rendering "/tmp/tmp0.mmd")).
Defined.

Lemma report_open_failure_keeps_old_report_witness :
  docs_glob env_report_refused <> []
  /\ fst (run ascii_only env_report_refused stale_disk) = 1
  /\ report_file (snd (run ascii_only env_report_refused stale_disk))
     = report_file stale_disk
  /\ trace (snd (run ascii_only env_report_refused stale_disk))
       ++ [IoWriteReport]
     = trace (snd (run ascii_only (with_report_open env_report_refused None)
                       stale_disk)).
Proof.
  assert (Hg : docs_glob env_report_refused <> []) by discriminate.
  split; [exact Hg|].
  destruct (report_open_failure_keeps_old_report ascii_only env_report_refused
              stale_disk _ eq_refl Hg eq_refl) as (H1 & H2 & _ & H4).
  split; [exact H1|]. split; [exact H2 | exact H4].
Defined.

Lemma unreadable_file_changes_nothing_witness :
  md_read unreadable_file
  = inl (OtherException (py "'utf-8' codec can't decode byte"))
  /\ report_file
       (snd (run ascii_only
               (env_of [md_file "a.md" twice_the_same_block; unreadable_file;
                        md_file "c.md" indented_block]
                       (probe_no_mmdc "/tmp/tmp0.mmd"))
               empty_disk))
     = report_file
         (snd (run ascii_only
                 (env_of [md_file "a.md" twice_the_same_block;
                          md_file "c.md" indented_block]
                         (probe_no_mmdc "/tmp/tmp0.mmd"))
                 empty_disk)).
Proof.
  split; [reflexivity|].
  refine (proj1 (proj1 (unreadable_file_changes_nothing ascii_only
                  (env_of [md_file "a.md" twice_the_same_block; unreadable_file;
                           md_file "c.md" indented_block]
                          (probe_no_mmdc "/tmp/tmp0.mmd"))
                  empty_disk empty_disk
                  [md_file "a.md" twice_the_same_block]
                  [md_file "c.md" indented_block]
                  unreadable_file _
                  (completes_env_of _ _ _) eq_refl eq_refl) _)).
  discriminate.
Defined.

Lemma run_leaves_no_temp_file_witness :
  (forall k, pe_write (probe_env (env_rendering "/tmp/tmp0.mmd") k) = None
             /\ unlink_refused (probe_env (env_rendering "/tmp/tmp0.mmd") k)
                = None)
  /\ incl (tmp_files (snd (run ascii_only (env_rendering "/tmp/tmp0.mmd")
                               stale_disk)))
          (tmp_files stale_disk).
Proof.
  split; [intros k; split; reflexivity|].
  exact (run_leaves_no_temp_file ascii_only (env_rendering "/tmp/tmp0.mmd")
           stale_disk (fun _ => conj eq_refl eq_refl)).
Defined.

Lemma files_read_once_then_probes_then_report_witness :
  completes (env_rendering "/tmp/tmp0.mmd")
  /\ exists ops,
       trace (snd (run ascii_only (env_rendering "/tmp/tmp0.mmd") empty_disk))
       = trace empty_disk
           ++ reads_of (docs_glob (env_rendering "/tmp/tmp0.mmd"))
           ++ ops ++ [IoWriteReport]
       /\ forallb probe_io ops = true.
Proof.
  split; [apply completes_env_rendering|].
  exact (files_read_once_then_probes_then_report ascii_only _ empty_disk
           (completes_env_rendering "/tmp/tmp0.mmd")).
Defined.

